(** * Create Buffers from Point: a shallow embedding of createBufferFromPoint.py

    The script is a linear ArcPy macro: it reads six dialog parameters,
    projects a WGS 1984 point to PA State Plane South (feet), builds a
    multi-ring buffer around it and writes timestamped messages to the
    geoprocessing dialog.  Everything interesting happens in the host
    (ArcPy, the clock, [time.sleep]); the model therefore keeps the host
    abstract, threads its state explicitly, and records every call the
    script makes in an event trace. *)

From Stdlib Require Import String Ascii List ZArith QArith Lia Bool.
Import ListNotations.
Open Scope string_scope.
Open Scope Z_scope.

(** ** Python values and exceptions *)

(** The objects that can sit in an exception's [args] tuple: the built-in
    types for which the language itself fixes the meaning of [x + str]. *)
Inductive value : Type :=
| VNone
| VStr (s : string)
| VInt (z : Z).

Inductive exc_class : Type :=
| BaseException | SystemExit | KeyboardInterrupt | GeneratorExit
| Exception | IndexError | TypeError | NameError | ValueError
| RuntimeError | IOError | ExecuteError.

Record exc : Type := mkExc { exc_type : exc_class; args : list value }.

(** [except Exception] catches exactly the classes derived from
    [Exception]; the first four classes above are not. *)
Definition isinstance_Exception (e : exc) : bool :=
  match exc_type e with
  | BaseException | SystemExit | KeyboardInterrupt | GeneratorExit => false
  | _ => true
  end.

Definition type_name (v : value) : string :=
  match v with
  | VNone => "NoneType"
  | VStr _ => "str"
  | VInt _ => "int"
  end.

(** The newline character written '\n' in the source. *)
Definition nl : string := String "010"%char EmptyString.

(** The literal '\n \n' appended to result and error messages. *)
Definition blank_lines : string := nl ++ " " ++ nl.

(** ** Host objects *)

Record spatial_ref : Type := mkSpatialReference { factoryCode : Z }.
Record point : Type := mkPoint { X : string; Y : string }.
Record point_geometry : Type :=
  mkPointGeometry { firstPoint : point; spatialReference : spatial_ref }.

(** A geoprocessing result object is a handle on a job of the engine. *)
Definition Result : Type := nat.

Record datetime : Type := mkDatetime {
  year : nat; month : nat; day : nat;
  hour : nat; minute : nat; second : nat
}.

(** Calls that are answered by the host and may change its state. *)
Inductive call : Type :=
| arcpy_AddMessage (message : string)
| arcpy_AddError (message : string)
| arcpy_SpatialReference (item : Z)
| arcpy_Point (x y : string)
| arcpy_PointGeometry (inputs : point) (sr : spatial_ref)
| arcpy_Project_management (in_dataset : point_geometry) (out_dataset : string)
    (out_coor_system : spatial_ref) (transform_method : string)
    (preserve_shape : string)
| arcpy_MultipleRingBuffer_analysis
    (Input_Features Output_Feature_class Distances Buffer_Unit : string)
| result_status (r : Result)
| result_getMessages (r : Result)
| time_sleep (secs : Q).

Definition ret_type (c : call) : Type :=
  match c with
  | arcpy_Project_management _ _ _ _ _ => Result
  | arcpy_MultipleRingBuffer_analysis _ _ _ _ => Result
  | result_status _ => Z
  | result_getMessages _ => string
  | _ => unit
  end.

(** What the script does to the outside, in order. *)
Inductive event : Type :=
| GetParameterAsText_ev (index : Z)
| call_ev (c : call).

(** The host: the state of the application and of the engine, the answer
    to each call (a value or a raised exception, and the next state), the
    clock, and the parameters typed into the tool's dialog. *)
Record Host : Type := mkHost {
  World : Type;
  respond : forall c : call, World -> (exc + ret_type c) * World;
  clock : World -> datetime;
  dialog : Z -> string
}.

(** ** String formatting *)

Definition digit (n : nat) : ascii := ascii_of_nat (48 + Nat.modulo n 10).

Definition pad2 (n : nat) : string :=
  String (digit (Nat.div n 10)) (String (digit n) EmptyString).

Definition pad4 (n : nat) : string :=
  String (digit (Nat.div n 1000)) (String (digit (Nat.div n 100))
    (pad2 n)).

(** The directives of [strftime] the script uses: two digits for month,
    day, hour, minute and second, four for the year.  Any other directive
    is copied. *)
Definition directive (d : ascii) (t : datetime) : string :=
  if Ascii.eqb d "m" then pad2 (month t)
  else if Ascii.eqb d "d" then pad2 (day t)
  else if Ascii.eqb d "Y" then pad4 (year t)
  else if Ascii.eqb d "H" then pad2 (hour t)
  else if Ascii.eqb d "M" then pad2 (minute t)
  else if Ascii.eqb d "S" then pad2 (second t)
  else String "%" (String d EmptyString).

Fixpoint strftime (fmt : string) (t : datetime) : string :=
  match fmt with
  | EmptyString => EmptyString
  | String c rest =>
      if Ascii.eqb c "%" then
        match rest with
        | String d rest' => directive d t ++ strftime rest' t
        | EmptyString => String c EmptyString
        end
      else String c (strftime rest t)
  end.

(** [str.format] on the templates of the script, whose only fields are
    '{}': each takes the next argument, every other character is copied.
    [None] when the arguments run out or a brace is not part of '{}'
    (escapes and named or numbered fields are not modelled). *)
Fixpoint format (tpl : string) (fields : list string) : option string :=
  match tpl with
  | EmptyString => Some EmptyString
  | String c rest =>
      if Ascii.eqb c "{" then
        match rest, fields with
        | String c' rest', a :: fields' =>
            if Ascii.eqb c' "}"
            then option_map (append a) (format rest' fields')
            else None
        | _, _ => None
        end
      else if Ascii.eqb c "}" then None
      else option_map (String c) (format rest fields)
  end.

(** ** The interpreter monad *)

Inductive outcome (A : Type) : Type :=
| Return (a : A)
| Raise (e : exc)
| OutOfFuel.
Arguments Return {A} a.
Arguments Raise {A} e.
Arguments OutOfFuel {A}.

Section Monad.

Variable h : Host.

(** The interpreter state: the host and the module's global namespace. *)
Record pystate : Type := mkState {
  world : World h;
  module_globals : list (string * string)
}.

Definition M (A : Type) : Type := pystate -> outcome A * pystate * list event.

Definition ret {A} (a : A) : M A := fun st => (Return a, st, []).

Definition bind {A B} (m : M A) (k : A -> M B) : M B :=
  fun st =>
    match m st with
    | (Return a, st1, evs1) =>
        let '(o, st2, evs2) := k a st1 in (o, st2, (evs1 ++ evs2)%list)
    | (Raise e, st1, evs1) => (Raise e, st1, evs1)
    | (OutOfFuel, st1, evs1) => (OutOfFuel, st1, evs1)
    end.

Definition raise {A} (e : exc) : M A := fun st => (Raise e, st, []).

Definition out_of_fuel {A} : M A := fun st => (OutOfFuel, st, []).

(** A call to the host: logged, then answered. *)
Definition perform (c : call) : M (ret_type c) :=
  fun st =>
    match respond h c (world st) with
    | (inr a, w) => (Return a, mkState w (module_globals st), [call_ev c])
    | (inl e, w) => (Raise e, mkState w (module_globals st), [call_ev c])
    end.

(** [try: body except Exception: handler], the handler receiving
    [sys.exc_info()[1]]. *)
Definition try_except_Exception {A} (body : M A) (handler : exc -> M A) : M A :=
  fun st =>
    match body st with
    | (Raise e, st1, evs1) =>
        if isinstance_Exception e then
          let '(o, st2, evs2) := handler e st1 in (o, st2, (evs1 ++ evs2)%list)
        else (Raise e, st1, evs1)
    | r => r
    end.

End Monad.

Arguments world {h} _.
Arguments module_globals {h} _.
Arguments ret {h A} a _.
Arguments bind {h A B} m k _.
Arguments raise {h A} e _.
Arguments out_of_fuel {h A} _.
Arguments try_except_Exception {h A} body handler _.

Notation "x <- m ;; k" := (bind m (fun x => k))
  (at level 61, m at next level, right associativity).
Notation "m ;; k" := (bind m (fun _ => k))
  (at level 61, right associativity).

Section Program.

Variable h : Host.

(** ** Primitives of the language and of the standard library *)

Fixpoint lookup (name : string) (g : list (string * string)) : option string :=
  match g with
  | [] => None
  | (n, v) :: g' => if String.eqb n name then Some v else lookup name g'
  end.

(** Binding a module-level name. *)
Definition assign (name v : string) : M h unit :=
  fun st => (Return tt, mkState h (world st) ((name, v) :: module_globals st), []).

(** Reading a module-level name; an unbound name is a [NameError] (with
    the message of Python 3). *)
Definition global (name : string) : M h string :=
  fun st =>
    match lookup name (module_globals st) with
    | Some v => (Return v, st, [])
    | None =>
        (Raise (mkExc NameError [VStr ("name '" ++ name ++ "' is not defined")]),
         st, [])
    end.

(** [arcpy.GetParameterAsText(index)]: the text typed in the dialog. *)
Definition GetParameterAsText (index : Z) : M h string :=
  fun st => (Return (dialog h index), st, [GetParameterAsText_ev index]).

(** [datetime.datetime.now()]. *)
Definition datetime_now : M h datetime :=
  fun st => (Return (clock h (world st)), st, []).

Definition str_format (tpl : string) (fields : list string) : M h string :=
  match format tpl fields with
  | Some s => ret s
  | None => raise (mkExc IndexError [VStr "tuple index out of range"])
  end.

(** [t[0]] on a tuple. *)
Definition getitem0 (t : list value) : M h value :=
  match t with
  | v :: _ => ret v
  | [] => raise (mkExc IndexError [VStr "tuple index out of range"])
  end.

(** [v + s] for a string [s]. *)
Definition add_str (v : value) (s : string) : M h string :=
  match v with
  | VStr a => ret (a ++ s)
  | _ =>
      raise (mkExc TypeError
        [VStr ("unsupported operand type(s) for +: '" ++ type_name v
               ++ "' and 'str'")])
  end.

(** The constructors of the host's value objects: the call may fail; when
    it returns, the object is the record of its arguments. *)
Definition SpatialReference (item : Z) : M h spatial_ref :=
  perform h (arcpy_SpatialReference item);; ret (mkSpatialReference item).

Definition Point (x y : string) : M h point :=
  perform h (arcpy_Point x y);; ret (mkPoint x y).

Definition PointGeometry (inputs : point) (sr : spatial_ref) : M h point_geometry :=
  perform h (arcpy_PointGeometry inputs sr);; ret (mkPointGeometry inputs sr).

(** ** The script *)

(** def addMessage(message), lines 48-56. *)
Definition addMessage (message : string) : M h unit :=
  currentTime <- datetime_now;;
  let formattedTime := strftime "%m-%d-%Y %H:%M:%S" currentTime in
  text <- str_format ("{} : {} " ++ blank_lines) [formattedTime; message];;
  perform h (arcpy_AddMessage text).

(** [while result.status < 4: time.sleep(0.2)], lines 90-91 and 120-121.
    The fuel bounds the number of iterations the model follows. *)
Fixpoint while_status_lt_4 (fuel : nat) (result : Result) : M h unit :=
  match fuel with
  | O => out_of_fuel
  | S fuel' =>
      s <- perform h (result_status result);;
      if s <? 4
      then perform h (time_sleep 0.2);; while_status_lt_4 fuel' result
      else ret tt
  end.

(** The body of [except Exception:], lines 101-107 and 130-136. *)
Definition except_handler (e : exc) : M h unit :=
  a0 <- getitem0 (args e);;
  text <- add_str a0 blank_lines;;
  perform h (arcpy_AddError text);;
  perform h (arcpy_AddError ("There was an error running this tool " ++ blank_lines)).

(** def createSPCPoint(lat, lon, outLayer), lines 61-107. *)
Definition createSPCPoint_try (fuel : nat) (lat lon outLayer : string) : M h unit :=
    (srWGS84 <- SpatialReference 4326;;
     srSPC <- SpatialReference 2272;;
     point <- Point lon lat;;
     geometryPoint <- PointGeometry point srWGS84;;
     msg <- str_format
       "Created WGS 1984 point for latitude: {} and longitude {}." [lat; lon];;
     addMessage msg;;
     result <- perform h (arcpy_Project_management geometryPoint outLayer srSPC
                          "NAD_1983_To_WGS_1984_1" "PRESERVE_SHAPE");;
     while_status_lt_4 fuel result;;
     resultValue <- perform h (result_getMessages result);;
     perform h (arcpy_AddMessage (resultValue ++ blank_lines));;
     addMessage "Reprojected point from WGS 1984 to PA State Plane South (feet).").

Definition createSPCPoint (fuel : nat) (lat lon outLayer : string) : M h unit :=
  try_except_Exception (createSPCPoint_try fuel lat lon outLayer) except_handler.

(** def createBuffers(point, outLayer, distances, units), lines 110-136.
    [lat] and [lon] are not parameters here: they are the module's names. *)
Definition createBuffers_try (fuel : nat) (point outLayer distances units : string)
  : M h unit :=
    (result <- perform h (arcpy_MultipleRingBuffer_analysis
                          point outLayer distances units);;
     while_status_lt_4 fuel result;;
     resultValue <- perform h (result_getMessages result);;
     perform h (arcpy_AddMessage (resultValue ++ blank_lines));;
     lat <- global "lat";;
     lon <- global "lon";;
     msg <- str_format
       "Created buffer(s) around location latitude: {}; longitude: {}."
       [lat; lon];;
     addMessage msg).

Definition createBuffers (fuel : nat) (point outLayer distances units : string)
  : M h unit :=
  try_except_Exception (createBuffers_try fuel point outLayer distances units)
    except_handler.

(** Lines 34-44: the six dialog parameters. *)
Definition acquire_parameters : M h unit :=
  v <- GetParameterAsText 0;; assign "lat" v;;
  v <- GetParameterAsText 1;; assign "lon" v;;
  v <- GetParameterAsText 2;; assign "spcPoint" v;;
  v <- GetParameterAsText 3;; assign "buffDist" v;;
  v <- GetParameterAsText 4;; assign "buffUnits" v;;
  v <- GetParameterAsText 5;; assign "pointBuffer" v.

(** Lines 140-149: the two steps between the opening and closing messages. *)
Definition run_tools (fuel : nat) : M h unit :=
  addMessage "Converting WGS 1984 point to PA State Plane South (feet) point.";;
  lat <- global "lat";;
  lon <- global "lon";;
  spcPoint <- global "spcPoint";;
  createSPCPoint fuel lat lon spcPoint;;
  spcPoint <- global "spcPoint";;
  pointBuffer <- global "pointBuffer";;
  buffDist <- global "buffDist";;
  buffUnits <- global "buffUnits";;
  createBuffers fuel spcPoint pointBuffer buffDist buffUnits;;
  addMessage "Create Buffer from Point tool has completed running.".

(** The module, top to bottom. *)
Definition script (fuel : nat) : M h unit :=
  acquire_parameters;; run_tools fuel.

End Program.

(** ** Reading a run *)

Definition outcome_of {S A} (r : outcome A * S * list event) : outcome A :=
  fst (fst r).
Definition state_of {S A} (r : outcome A * S * list event) : S :=
  snd (fst r).
Definition events_of {S A} (r : outcome A * S * list event) : list event :=
  snd r.

(** How the interpreter ends a module run as a script: with the status of
    success (0) when the module's code runs to its end.  A [SystemExit]
    ends it with its code: the single argument of the exception ([None]
    when there is none, the whole tuple when there are several); no code
    or [None] is status 0, an integer is that integer as the process
    reports it (its low eight bits), and anything else is printed and
    gives status 1.  Any other exception that leaves the module gives
    status 1.  [None]: the run has not ended. *)
Definition exits_as_success (o : outcome unit) : option bool :=
  match o with
  | Return _ => Some true
  | Raise e =>
      match exc_type e, args e with
      | SystemExit, [] => Some true
      | SystemExit, [VNone] => Some true
      | SystemExit, [VInt z] => Some (Z.modulo z 256 =? 0)
      | _, _ => Some false
      end
  | OutOfFuel => None
  end.

Definition is_GetParameterAsText (ev : event) : bool :=
  match ev with GetParameterAsText_ev _ => true | _ => false end.

Definition is_AddError (ev : event) : bool :=
  match ev with call_ev (arcpy_AddError _) => true | _ => false end.

Definition is_AddMessage (ev : event) : bool :=
  match ev with call_ev (arcpy_AddMessage _) => true | _ => false end.

Definition is_Project (ev : event) : bool :=
  match ev with call_ev (arcpy_Project_management _ _ _ _ _) => true | _ => false end.

Definition is_MultipleRingBuffer (ev : event) : bool :=
  match ev with
  | call_ev (arcpy_MultipleRingBuffer_analysis _ _ _ _) => true
  | _ => false
  end.

(** An exception the handlers can report: caught by [except Exception],
    and with a string as [args[0]]. *)
Definition head_is_str (t : list value) : bool :=
  match t with VStr _ :: _ => true | _ => false end.

Definition loggable (e : exc) : bool :=
  isinstance_Exception e && head_is_str (args e).

(** ** Assumptions on hosts *)

Definition raises_only_loggable (h : Host) : Prop :=
  forall c w e w', respond h c w = (inl e, w') -> loggable e = true.

(** The host answers the calls selected by [sel] with a value. *)
Definition returns_on (h : Host) (sel : call -> bool) : Prop :=
  forall c w, sel c = true -> exists a w', respond h c w = (inr a, w').

Definition is_sink (c : call) : bool :=
  match c with arcpy_AddMessage _ | arcpy_AddError _ => true | _ => false end.

(** The calls [createSPCPoint lat lon _] makes before the projection. *)
Definition is_projection_setup (lat lon : string) (c : call) : bool :=
  match c with
  | arcpy_SpatialReference _ => true
  | arcpy_Point x y => String.eqb x lon && String.eqb y lat
  | arcpy_PointGeometry _ _ => true
  | arcpy_AddMessage _ => true
  | _ => false
  end.


Definition sinks_return (h : Host) : Prop := returns_on h is_sink.


(** ** Hosts to run the script on *)

Definition numeric_char (c : ascii) : bool :=
  existsb (Ascii.eqb c) (list_ascii_of_string "0123456789.+-").

Definition is_numeric (s : string) : bool :=
  negb (String.eqb s "") && forallb numeric_char (list_ascii_of_string s).

(** What varies between the hosts below. *)
Record scenario : Type := mkScenario {
  project_fails : option exc;
  buffer_fails : option exc;
  sleep_fails : option exc;
  job_completes : bool
}.

Definition answer {A} (failure : option exc) (a : A) : exc + A :=
  match failure with Some e => inl e | None => inr a end.

(** The state of a demo host is the number of sleeps after which a job is
    reported as succeeded (status 4); until then it is executing (3). *)
Definition demo_respond (sc : scenario) (c : call) (w : nat)
  : (exc + ret_type c) * nat :=
  match c as c0 return (exc + ret_type c0) * nat with
  | arcpy_AddMessage _ => (inr tt, w)
  | arcpy_AddError _ => (inr tt, w)
  | arcpy_SpatialReference _ => (inr tt, w)
  | arcpy_Point x y =>
      if is_numeric x && is_numeric y then (inr tt, w)
      else (inl (mkExc RuntimeError [VStr "Point: Input value is not numeric"]), w)
  | arcpy_PointGeometry _ _ => (inr tt, w)
  | arcpy_Project_management _ _ _ _ _ => (answer (project_fails sc) 1%nat, w)
  | arcpy_MultipleRingBuffer_analysis _ _ _ _ => (answer (buffer_fails sc) 2%nat, w)
  | result_status _ =>
      (inr (if job_completes sc && Nat.eqb w 0 then 4 else 3), w)
  | result_getMessages _ => (inr "Succeeded", w)
  | time_sleep _ => (answer (sleep_fails sc) tt, Nat.pred w)
  end.

Definition demo_dialog (lat : string) (index : Z) : string :=
  if index =? 0 then lat
  else if index =? 1 then "-77.19"
  else if index =? 2 then "spc_point"
  else if index =? 3 then "500;1000"
  else if index =? 4 then "Feet"
  else if index =? 5 then "point_buffer"
  else "".

Definition demo_host (sc : scenario) (lat : string) : Host :=
  mkHost nat (demo_respond sc)
    (fun _ => mkDatetime 2017 2 13 10 0 0) (demo_dialog lat).

Definition nominal : scenario := mkScenario None None None true.

Definition permission_denied : exc :=
  mkExc IOError [VInt 13; VStr "Permission denied"].

Definition start (h : Host) (w : World h) : pystate h := mkState h w [].

(** ** Vocabulary of the statements *)

(** The time as [strftime("%m-%d-%Y %H:%M:%S")] writes it. *)
Definition stamp (t : datetime) : string :=
  pad2 (month t) ++ "-" ++ pad2 (day t) ++ "-" ++ pad4 (year t) ++ " "
  ++ pad2 (hour t) ++ ":" ++ pad2 (minute t) ++ ":" ++ pad2 (second t).

(** The text [addMessage] sends for [message] at time [t]. *)
Definition stamped (t : datetime) (message : string) : string :=
  stamp t ++ " : " ++ message ++ " " ++ blank_lines.

(** The second line a handler writes. *)
Definition generic_error : string :=
  "There was an error running this tool " ++ blank_lines.

(** What a handler writes for an exception whose message is [m]. *)
Definition error_report (m : string) : list event :=
  [call_ev (arcpy_AddError (m ++ blank_lines));
   call_ev (arcpy_AddError generic_error)].

(** [e.args[0]] when it is a string. *)
Definition message_of (e : exc) : string :=
  match args e with VStr m :: _ => m | _ => "" end.

(** The exception raised by [e.args[0] + '\n \n'] when it is not defined. *)
Definition handler_error (e : exc) : exc :=
  match args e with
  | [] => mkExc IndexError [VStr "tuple index out of range"]
  | v :: _ =>
      mkExc TypeError
        [VStr ("unsupported operand type(s) for +: '" ++ type_name v
               ++ "' and 'str'")]
  end.

(** The calls [createSPCPoint lat lon outLayer] may make. *)
Definition projection_event (lat lon outLayer : string) (ev : event) : Prop :=
  match ev with
  | GetParameterAsText_ev _ => False
  | call_ev (arcpy_SpatialReference item) => item = 4326 \/ item = 2272
  | call_ev (arcpy_Point x y) => x = lon /\ y = lat
  | call_ev (arcpy_PointGeometry p sr) =>
      p = mkPoint lon lat /\ sr = mkSpatialReference 4326
  | call_ev (arcpy_Project_management g out sr method shape) =>
      g = mkPointGeometry (mkPoint lon lat) (mkSpatialReference 4326) /\
      out = outLayer /\ sr = mkSpatialReference 2272 /\
      method = "NAD_1983_To_WGS_1984_1" /\ shape = "PRESERVE_SHAPE"
  | call_ev (arcpy_MultipleRingBuffer_analysis _ _ _ _) => False
  | call_ev (time_sleep secs) => secs = 0.2%Q
  | _ => True
  end.

(** The calls [createBuffers point outLayer distances units] may make. *)
Definition buffer_event (point outLayer distances units : string) (ev : event)
  : Prop :=
  match ev with
  | GetParameterAsText_ev _ => False
  | call_ev (arcpy_SpatialReference _) => False
  | call_ev (arcpy_Point _ _) => False
  | call_ev (arcpy_PointGeometry _ _) => False
  | call_ev (arcpy_Project_management _ _ _ _ _) => False
  | call_ev (arcpy_MultipleRingBuffer_analysis p out d u) =>
      p = point /\ out = outLayer /\ d = distances /\ u = units
  | call_ev (time_sleep secs) => secs = 0.2%Q
  | _ => True
  end.

(** What [createSPCPoint_try] does before the projection call. *)
Definition setup_events (lat lon : string) (t : datetime) : list event :=
  [call_ev (arcpy_SpatialReference 4326);
   call_ev (arcpy_SpatialReference 2272);
   call_ev (arcpy_Point lon lat);
   call_ev (arcpy_PointGeometry (mkPoint lon lat) (mkSpatialReference 4326));
   call_ev (arcpy_AddMessage
              (stamped t ("Created WGS 1984 point for latitude: " ++ lat
                          ++ " and longitude " ++ lon ++ ".")))].


(** One round of a wait that is not over: a status read and a sleep. *)
Definition waiting_round (r : Result) : list event :=
  [call_ev (result_status r); call_ev (time_sleep 0.2)].

(** The reads of lines 34-44. *)
Definition parameter_reads : list event :=
  map GetParameterAsText_ev [0; 1; 2; 3; 4; 5].

(** The multi-ring buffer call with the given arguments, and any other
    event. *)
Definition buffer_call_is (point outLayer distances units : string) (ev : event)
  : Prop :=
  match ev with
  | call_ev (arcpy_MultipleRingBuffer_analysis p out d u) =>
      p = point /\ out = outLayer /\ d = distances /\ u = units
  | _ => True
  end.

Section Vocabulary.

Variable h : Host.

(** [spec G P E m R]: started with the module names bound as in [G], the
    run of [m] emits only events satisfying [P], leaves the names as they
    are, returns only values satisfying [R] and raises only exceptions
    satisfying [E]. *)
Definition spec {A} (G : list (string * string)) (P : event -> Prop)
  (E : exc -> Prop) (m : M h A) (R : A -> Prop) : Prop :=
  forall st, module_globals st = G ->
    Forall P (events_of (m st)) /\
    module_globals (state_of (m st)) = G /\
    match outcome_of (m st) with
    | Return a => R a
    | Raise e => E e
    | OutOfFuel => True
    end.

(** Every exception the host raises satisfies [E]. *)
Definition host_raises_in (E : exc -> Prop) : Prop :=
  forall c w e w', respond h c w = (inl e, w') -> E e.

(** What [createSPCPoint_try] does from the projection call on. *)
Definition project_and_wait (fuel : nat) (lat lon outLayer : string) : M h unit :=
  result <- perform h (arcpy_Project_management
                         (mkPointGeometry (mkPoint lon lat)
                            (mkSpatialReference 4326))
                         outLayer (mkSpatialReference 2272)
                         "NAD_1983_To_WGS_1984_1" "PRESERVE_SHAPE");;
  while_status_lt_4 h fuel result;;
  resultValue <- perform h (result_getMessages result);;
  perform h (arcpy_AddMessage (resultValue ++ blank_lines));;
  addMessage h "Reprojected point from WGS 1984 to PA State Plane South (feet).".

(** The names bound by lines 34-44, most recent first. *)
Definition bindings : list (string * string) :=
  [("pointBuffer", dialog h 5); ("buffUnits", dialog h 4);
   ("buffDist", dialog h 3); ("spcPoint", dialog h 2);
   ("lon", dialog h 1); ("lat", dialog h 0)].

(** The six names are bound to the dialog's values. *)
Definition bound (G : list (string * string)) : Prop :=
  lookup "lat" G = Some (dialog h 0) /\ lookup "lon" G = Some (dialog h 1) /\
  lookup "spcPoint" G = Some (dialog h 2) /\
  lookup "buffDist" G = Some (dialog h 3) /\
  lookup "buffUnits" G = Some (dialog h 4) /\
  lookup "pointBuffer" G = Some (dialog h 5).

(** The events of the two steps as the module calls them. *)
Definition step_event (ev : event) : Prop :=
  projection_event (dialog h 0) (dialog h 1) (dialog h 2) ev \/
  buffer_event (dialog h 2) (dialog h 5) (dialog h 3) (dialog h 4) ev.

End Vocabulary.

Arguments spec h {A} G P E m R.


(** The state in which line 143 calls [createSPCPoint]. *)
Definition at_line_143 (h : Host) (st : pystate h) : pystate h :=
  mkState h
    (snd (respond h
            (arcpy_AddMessage
               (stamped (clock h (world st))
                  "Converting WGS 1984 point to PA State Plane South (feet) point."))
            (world st)))
    (bindings h ++ module_globals st)%list.

(** A host whose engine fails with an error number first. *)
Definition denying_host : Host :=
  demo_host (mkScenario (Some permission_denied) (Some permission_denied)
               None true) "40.2".


(** A host on which the wait is interrupted from the keyboard. *)
Definition interrupted_host : Host :=
  demo_host (mkScenario None None (Some (mkExc KeyboardInterrupt [])) true)
    "40.2".

(** A host whose projection fails with the engine's own error. *)
Definition failing_host : Host :=
  demo_host
    (mkScenario
       (Some (mkExc ExecuteError [VStr "ERROR 000732: dataset does not exist"]))
       None None true) "40.2".

(** A state in which [lat] and [lon] are bound. *)
Definition bound_state (h : Host) (w : World h) : pystate h :=
  mkState h w [("lon", "-77.19"); ("lat", "40.2")].

(** ** Further vocabulary *)

Definition not_AddError (ev : event) : Prop := is_AddError ev = false.

(** An error line is one of the two lines the handler writes for the
    exception that the [try] block [body] raised from [st]. *)
Definition reported_by {h : Host} (body : M h unit) (st : pystate h)
  (ev : event) : Prop :=
  match ev with
  | call_ev (arcpy_AddError s) =>
      exists e st1 evs,
        body st = (Raise e, st1, evs) /\
        isinstance_Exception e = true /\ head_is_str (args e) = true /\
        (s = message_of e ++ blank_lines \/ s = generic_error)
  | _ => True
  end.

(** Building a reference, a point or a geometry, or projecting. *)
Definition is_geometry_call (ev : event) : bool :=
  match ev with
  | call_ev (arcpy_SpatialReference _) => true
  | call_ev (arcpy_Point _ _) => true
  | call_ev (arcpy_PointGeometry _ _) => true
  | call_ev (arcpy_Project_management _ _ _ _ _) => true
  | _ => false
  end.

Definition is_poll (ev : event) : bool :=
  match ev with
  | call_ev (result_status _) => true
  | call_ev (time_sleep _) => true
  | _ => false
  end.

(** The engine reports a job as over at the first status read. *)
Definition completes_at_once (h : Host) : Prop :=
  forall r w, exists s w', respond h (result_status r) w = (inr s, w') /\ 4 <= s.

(** A host that answers every call, with jobs that are over at once. *)
Definition obliging_respond (c : call) (w : unit) : (exc + ret_type c) * unit :=
  match c as c0 return (exc + ret_type c0) * unit with
  | arcpy_Project_management _ _ _ _ _ => (inr 1%nat, w)
  | arcpy_MultipleRingBuffer_analysis _ _ _ _ => (inr 2%nat, w)
  | result_status _ => (inr 4, w)
  | result_getMessages _ => (inr "Succeeded", w)
  | _ => (inr tt, w)
  end.

Definition obliging_host : Host :=
  mkHost unit obliging_respond (fun _ => mkDatetime 2017 2 13 10 0 0)
    (demo_dialog "40.2").

(** A host on which both jobs fail with the engine's own error. *)
Definition refusing_host : Host :=
  demo_host
    (mkScenario
       (Some (mkExc ExecuteError [VStr "ERROR 000732: dataset does not exist"]))
       (Some (mkExc ExecuteError [VStr "ERROR 000732: dataset does not exist"]))
       None true) "40.2".

(** The two operations of the engine. *)
Definition is_engine_op (c : call) : bool :=
  match c with
  | arcpy_Project_management _ _ _ _ _ => true
  | arcpy_MultipleRingBuffer_analysis _ _ _ _ => true
  | _ => false
  end.

(** A host whose message sink is closed: [AddMessage] raises. *)
Definition mute_respond (c : call) (w : nat) : (exc + ret_type c) * nat :=
  match c as c0 return (exc + ret_type c0) * nat with
  | arcpy_AddMessage _ =>
      (inl (mkExc RuntimeError [VStr "AddMessage: Object: Error in executing tool"]),
       w)
  | c' => demo_respond nominal c' w
  end.

Definition mute_host : Host :=
  mkHost nat mute_respond (fun _ => mkDatetime 2017 2 13 10 0 0)
    (demo_dialog "40.2").

(** The messages of lines 98, 140 and 149. *)
Definition reprojected_message : string :=
  "Reprojected point from WGS 1984 to PA State Plane South (feet).".

Definition opening_message : string :=
  "Converting WGS 1984 point to PA State Plane South (feet) point.".

Definition closing_message : string :=
  "Create Buffer from Point tool has completed running.".

(** ** Running the monad *)

Section Facts.

Variable h : Host.

Lemma perform_returns (c : call) (st : pystate h) a w' :
  respond h c (world st) = (inr a, w') ->
  perform h c st = (Return a, mkState h w' (module_globals st), [call_ev c]).
Proof. intros E. unfold perform. rewrite E. reflexivity. Qed.

Lemma perform_raises (c : call) (st : pystate h) e w' :
  respond h c (world st) = (inl e, w') ->
  perform h c st = (Raise e, mkState h w' (module_globals st), [call_ev c]).
Proof. intros E. unfold perform. rewrite E. reflexivity. Qed.

Lemma bind_returns {A B} (m : M h A) (k : A -> M h B) st a st1 evs1 :
  m st = (Return a, st1, evs1) ->
  bind m k st =
  (outcome_of (k a st1), state_of (k a st1), (evs1 ++ events_of (k a st1))%list).
Proof.
  intros E. unfold bind. rewrite E.
  destruct (k a st1) as [[o st2] evs2]. reflexivity.
Qed.

Lemma bind_raises {A B} (m : M h A) (k : A -> M h B) st e st1 evs1 :
  m st = (Raise e, st1, evs1) -> bind m k st = (Raise e, st1, evs1).
Proof. intros E. unfold bind. rewrite E. reflexivity. Qed.


Lemma run_eta {A} (r : outcome A * pystate h * list event) :
  r = (outcome_of r, state_of r, events_of r).
Proof. destruct r as [[o s] e]. reflexivity. Qed.

Lemma bind_ret_l {A B} (a : A) (k : A -> M h B) st : bind (ret a) k st = k a st.
Proof. unfold bind, ret. destruct (k a st) as [[o st2] evs2]. reflexivity. Qed.

Lemma bind_raise_l {A B} (e : exc) (k : A -> M h B) st :
  bind (raise e) k st = (Raise e, st, []).
Proof. reflexivity. Qed.

Lemma bind_perform_returns {B} (c : call) (k : ret_type c -> M h B) st a w' :
  respond h c (world st) = (inr a, w') ->
  bind (perform h c) k st =
  (outcome_of (k a (mkState h w' (module_globals st))),
   state_of (k a (mkState h w' (module_globals st))),
   call_ev c :: events_of (k a (mkState h w' (module_globals st)))).
Proof.
  intros E. rewrite (bind_returns _ _ _ _ _ _ (perform_returns c st a w' E)).
  reflexivity.
Qed.

Lemma bind_perform_raises {B} (c : call) (k : ret_type c -> M h B) st e w' :
  respond h c (world st) = (inl e, w') ->
  bind (perform h c) k st
  = (Raise e, mkState h w' (module_globals st), [call_ev c]).
Proof. intros E. apply bind_raises. apply perform_raises, E. Qed.

(** ** String formatting of the script's templates *)

Lemma strftime_stamp (t : datetime) : strftime "%m-%d-%Y %H:%M:%S" t = stamp t.
Proof. reflexivity. Qed.

Lemma format_message (a b : string) :
  format ("{} : {} " ++ blank_lines) [a; b]
  = Some (a ++ " : " ++ b ++ " " ++ blank_lines).
Proof. reflexivity. Qed.

Lemma format_created_point (lat lon : string) :
  format "Created WGS 1984 point for latitude: {} and longitude {}." [lat; lon]
  = Some ("Created WGS 1984 point for latitude: " ++ lat
          ++ " and longitude " ++ lon ++ ".").
Proof. reflexivity. Qed.

Lemma format_created_buffers (lat lon : string) :
  format "Created buffer(s) around location latitude: {}; longitude: {}."
    [lat; lon]
  = Some ("Created buffer(s) around location latitude: " ++ lat
          ++ "; longitude: " ++ lon ++ ".").
Proof. reflexivity. Qed.

Lemma addMessage_run (message : string) (st : pystate h) :
  addMessage h message st
  = perform h (arcpy_AddMessage (stamped (clock h (world st)) message)) st.
Proof.
  unfold addMessage, datetime_now, str_format.
  unfold bind at 1. cbv beta iota zeta.
  rewrite strftime_stamp, format_message.
  unfold bind at 1, ret. cbv beta iota.
  fold (stamped (clock h (world st)) message).
  destruct (perform h _ st) as [[o st'] evs]. reflexivity.
Qed.

(** ** Rules for the specification of runs *)

Lemma spec_ret {A} G P E (a : A) (R : A -> Prop) : R a -> spec h G P E (ret a) R.
Proof. intros Ha st HG. cbn. auto. Qed.

Lemma spec_raise {A} G P (E : exc -> Prop) e (R : A -> Prop) :
  E e -> spec h G P E (raise e) R.
Proof. intros He st HG. cbn. auto. Qed.

Lemma spec_bind {A B} G P E (m : M h A) (k : A -> M h B) R R' :
  spec h G P E m R -> (forall a, R a -> spec h G P E (k a) R') ->
  spec h G P E (bind m k) R'.
Proof.
  intros Hm Hk st HG. destruct (Hm st HG) as (HP & HG1 & HR).
  unfold bind. destruct (m st) as [[[a|e|] st1] evs1]; cbn in *; auto.
  destruct (Hk a HR st1 HG1) as (HP2 & HG2 & HR2).
  destruct (k a st1) as [[o st2] evs2]; cbn in *.
  split; [apply Forall_app; auto | auto].
Qed.

Lemma spec_weaken {A} G (P P' : event -> Prop) (E E' : exc -> Prop)
  (m : M h A) (R R' : A -> Prop) :
  spec h G P E m R -> (forall ev, P ev -> P' ev) -> (forall e, E e -> E' e) ->
  (forall a, R a -> R' a) -> spec h G P' E' m R'.
Proof.
  intros Hm HP HE HR st HG. destruct (Hm st HG) as (H1 & H2 & H3).
  split; [|split]; auto.
  - eapply Forall_impl; eauto.
  - destruct (outcome_of (m st)); auto.
Qed.

Lemma spec_perform G P E (c : call) :
  P (call_ev c) -> host_raises_in h E -> spec h G P E (perform h c) (fun _ => True).
Proof.
  intros HP HE st HG. unfold perform.
  destruct (respond h c (world st)) as [[e|a] w] eqn:Hr; cbn; auto.
  repeat split; auto. eapply HE; eauto.
Qed.

Lemma spec_global G P (E : exc -> Prop) (name : string) (R : string -> Prop) :
  match lookup name G with
  | Some v => R v
  | None => E (mkExc NameError [VStr ("name '" ++ name ++ "' is not defined")])
  end -> spec h G P E (global h name) R.
Proof.
  intros H st HG. unfold global. rewrite HG.
  destruct (lookup name G); cbn; auto.
Qed.

Lemma spec_str_format G P (E : exc -> Prop) tpl fields s (R : string -> Prop) :
  format tpl fields = Some s -> R s -> spec h G P E (str_format h tpl fields) R.
Proof. intros Hf HR. unfold str_format. rewrite Hf. apply spec_ret, HR. Qed.

Lemma spec_addMessage G P E (message : string) :
  (forall s, P (call_ev (arcpy_AddMessage s))) -> host_raises_in h E ->
  spec h G P E (addMessage h message) (fun _ => True).
Proof.
  intros HP HE st HG. rewrite addMessage_run.
  apply (spec_perform G P E _ (HP _) HE st HG).
Qed.

Lemma spec_while G P E (fuel : nat) (r : Result) :
  P (call_ev (result_status r)) -> P (call_ev (time_sleep 0.2)) ->
  host_raises_in h E -> spec h G P E (while_status_lt_4 h fuel r) (fun _ => True).
Proof.
  intros Hs Hz HE. induction fuel as [|n IH]; cbn [while_status_lt_4].
  - intros st HG. cbn. auto.
  - apply spec_bind with (R := fun _ => True); [apply spec_perform; auto|].
    intros s _. destruct (s <? 4).
    + apply spec_bind with (R := fun _ => True); [apply spec_perform; auto|].
      intros ? ?; apply IH.
    + apply spec_ret; exact I.
Qed.

Lemma spec_try {A} G P (E E' : exc -> Prop) (body : M h A) handler R :
  spec h G P E body R ->
  (forall e, E e -> isinstance_Exception e = true -> spec h G P E' (handler e) R) ->
  (forall e, E e -> isinstance_Exception e = false -> E' e) ->
  spec h G P E' (try_except_Exception body handler) R.
Proof.
  intros Hb Hh Hn st HG. destruct (Hb st HG) as (HP & HG1 & HR).
  unfold try_except_Exception.
  destruct (body st) as [[[a|e|] st1] evs1]; cbn in *; auto.
  destruct (isinstance_Exception e) eqn:Hi; cbn; auto.
  destruct (Hh e HR Hi st1 HG1) as (HP2 & HG2 & HR2).
  destruct (handler e st1) as [[o st2] evs2]; cbn in *.
  split; [apply Forall_app; auto | auto].
Qed.

(** ** The handler *)

Lemma handler_escapes (e : exc) (st : pystate h) :
  head_is_str (args e) = false ->
  except_handler h e st = (Raise (handler_error e), st, []).
Proof.
  unfold except_handler, handler_error. destruct (args e) as [|[| m |z] rest];
    cbn; intros H; try discriminate; reflexivity.
Qed.

Lemma handler_error_class (e : exc) :
  exc_type (handler_error e) = IndexError \/ exc_type (handler_error e) = TypeError.
Proof. unfold handler_error. destruct (args e); cbn; auto. Qed.

Lemma handler_logs (e : exc) (st : pystate h) :
  sinks_return h -> head_is_str (args e) = true ->
  exists w', except_handler h e st
             = (Return tt, mkState h w' (module_globals st),
                error_report (message_of e)).
Proof.
  intros Hs Hh. unfold except_handler, message_of, error_report.
  destruct (args e) as [|[| m |z] rest]; try discriminate.
  cbn [getitem0 add_str].
  destruct (Hs (arcpy_AddError (m ++ blank_lines)) (world st) eq_refl)
    as ([] & w1 & E1).
  destruct (Hs (arcpy_AddError generic_error) w1 eq_refl) as ([] & w2 & E2).
  exists w2. rewrite bind_ret_l. cbn [add_str]. rewrite bind_ret_l.
  rewrite (bind_perform_returns (arcpy_AddError (m ++ blank_lines)) _ st tt w1 E1).
  cbv beta. fold generic_error.
  rewrite (perform_returns (arcpy_AddError generic_error)
             (mkState h w1 (module_globals st)) tt w2 E2).
  reflexivity.
Qed.

Lemma spec_handler G P E (e : exc) :
  (forall s, P (call_ev (arcpy_AddError s))) -> host_raises_in h E ->
  E (handler_error e) -> spec h G P E (except_handler h e) (fun _ => True).
Proof.
  intros HP HE He. unfold except_handler, handler_error in *.
  destruct (args e) as [|v rest]; cbn [getitem0].
  - apply spec_bind with (R := fun _ => False); [apply spec_raise, He|].
    intros a [].
  - apply spec_bind with (R := fun a => a = v); [apply spec_ret; reflexivity|].
    intros a0 ->.
    eapply spec_bind with (R := fun _ => True).
    + destruct v; cbn [add_str]; try (apply spec_raise, He). apply spec_ret, I.
    + intros text _.
      apply spec_bind with (R := fun _ => True);
        [apply (spec_perform G P E (arcpy_AddError text)); auto|].
      intros ? ?; apply (spec_perform G P E (arcpy_AddError _)); auto.
Qed.

Lemma spec_handler_loggable G P (e : exc) :
  sinks_return h -> (forall s, P (call_ev (arcpy_AddError s))) ->
  head_is_str (args e) = true ->
  spec h G P (fun _ => False) (except_handler h e) (fun _ => True).
Proof.
  intros Hs HP Hh st HG. destruct (handler_logs e st Hs Hh) as (w' & ->).
  cbn. split; [|split]; auto.
  unfold error_report. repeat constructor; apply HP.
Qed.

(** A [try] whose body raised a reportable exception returns after the
    report; whatever else the body did is the statement's result. *)
Lemma try_reports (body : M h unit) (st : pystate h) e st1 evs :
  sinks_return h -> body st = (Raise e, st1, evs) -> loggable e = true ->
  exists st2, try_except_Exception body (except_handler h) st
              = (Return tt, st2, (evs ++ error_report (message_of e))%list).
Proof.
  intros Hs Hb Hl. unfold loggable in Hl. apply andb_prop in Hl as [Hi Hh].
  unfold try_except_Exception. rewrite Hb, Hi.
  destruct (handler_logs e st1 Hs Hh) as (w' & ->). eauto.
Qed.

Lemma try_escapes (body : M h unit) (st : pystate h) e st1 evs :
  body st = (Raise e, st1, evs) -> isinstance_Exception e = true ->
  head_is_str (args e) = false ->
  try_except_Exception body (except_handler h) st
  = (Raise (handler_error e), st1, evs).
Proof.
  intros Hb Hi Hh. unfold try_except_Exception. rewrite Hb, Hi.
  rewrite (handler_escapes e st1 Hh). rewrite app_nil_r. reflexivity.
Qed.

Lemma try_passes (body : M h unit) (st : pystate h) e st1 evs :
  body st = (Raise e, st1, evs) -> isinstance_Exception e = false ->
  try_except_Exception body (except_handler h) st = (Raise e, st1, evs).
Proof. intros Hb Hi. unfold try_except_Exception. rewrite Hb, Hi. reflexivity. Qed.

(** ** Equations for the parts of a run *)

Lemma bind_events {A B} (m : M h A) (k : A -> M h B) st :
  events_of (bind m k st) =
  (events_of (m st) ++
   match outcome_of (m st) with
   | Return a => events_of (k a (state_of (m st)))
   | _ => []
   end)%list.
Proof.
  unfold bind. destruct (m st) as [[[a|e|] st1] evs1]; cbn;
    try (rewrite app_nil_r; reflexivity).
  destruct (k a st1) as [[o st2] evs2]. reflexivity.
Qed.

Lemma bind_outcome {A B} (m : M h A) (k : A -> M h B) st :
  outcome_of (bind m k st) =
  match outcome_of (m st) with
  | Return a => outcome_of (k a (state_of (m st)))
  | Raise e => Raise e
  | OutOfFuel => OutOfFuel
  end.
Proof.
  unfold bind. destruct (m st) as [[[a|e|] st1] evs1]; cbn; auto.
  destruct (k a st1) as [[o st2] evs2]. reflexivity.
Qed.

Lemma try_events {A} (body : M h A) handler st :
  events_of (try_except_Exception body handler st) =
  (events_of (body st) ++
   match outcome_of (body st) with
   | Raise e =>
       if isinstance_Exception e
       then events_of (handler e (state_of (body st))) else []
   | _ => []
   end)%list.
Proof.
  unfold try_except_Exception.
  destruct (body st) as [[[a|e|] st1] evs1]; cbn;
    try (rewrite app_nil_r; reflexivity).
  destruct (isinstance_Exception e); cbn; [|rewrite app_nil_r; reflexivity].
  destruct (handler e st1) as [[o st2] evs2]. reflexivity.
Qed.


(** ** The events of the two steps *)

Ltac spec_step R' :=
  apply spec_bind with (R := R'); [| intros ? ?].

Lemma spec_SpatialReference G P E (item : Z) :
  P (call_ev (arcpy_SpatialReference item)) -> host_raises_in h E ->
  spec h G P E (SpatialReference h item) (fun sr => sr = mkSpatialReference item).
Proof.
  intros HP HE. unfold SpatialReference.
  spec_step (fun _ : unit => True).
  - apply (spec_perform G P E (arcpy_SpatialReference item)); auto.
  - apply spec_ret. reflexivity.
Qed.

Lemma spec_Point G P E (x y : string) :
  P (call_ev (arcpy_Point x y)) -> host_raises_in h E ->
  spec h G P E (Point h x y) (fun p => p = mkPoint x y).
Proof.
  intros HP HE. unfold Point.
  spec_step (fun _ : unit => True).
  - apply (spec_perform G P E (arcpy_Point x y)); auto.
  - apply spec_ret. reflexivity.
Qed.

Lemma spec_PointGeometry G P E (p : point) (sr : spatial_ref) :
  P (call_ev (arcpy_PointGeometry p sr)) -> host_raises_in h E ->
  spec h G P E (PointGeometry h p sr) (fun g => g = mkPointGeometry p sr).
Proof.
  intros HP HE. unfold PointGeometry.
  spec_step (fun _ : unit => True).
  - apply (spec_perform G P E (arcpy_PointGeometry p sr)); auto.
  - apply spec_ret. reflexivity.
Qed.

Lemma createSPCPoint_try_spec G E (fuel : nat) (lat lon outLayer : string) :
  host_raises_in h E ->
  spec h G (projection_event lat lon outLayer) E
    (createSPCPoint_try h fuel lat lon outLayer) (fun _ => True).
Proof.
  intros HE. unfold createSPCPoint_try.
  spec_step (fun sr => sr = mkSpatialReference 4326).
  { apply spec_SpatialReference; cbn; auto. }
  subst. spec_step (fun sr => sr = mkSpatialReference 2272).
  { apply spec_SpatialReference; cbn; auto. }
  subst. spec_step (fun p => p = mkPoint lon lat).
  { apply spec_Point; cbn; auto. }
  subst. spec_step (fun g => g = mkPointGeometry (mkPoint lon lat)
                                  (mkSpatialReference 4326)).
  { apply spec_PointGeometry; cbn; auto. }
  subst. spec_step (fun _ : string => True).
  { eapply spec_str_format; [apply format_created_point | exact I]. }
  spec_step (fun _ : unit => True).
  { apply spec_addMessage; cbn; auto. }
  spec_step (fun _ : Result => True).
  { apply (spec_perform G _ E (arcpy_Project_management _ _ _ _ _)); cbn; auto. }
  spec_step (fun _ : unit => True).
  { apply spec_while; cbn; auto. }
  spec_step (fun _ : string => True).
  { apply (spec_perform G _ E (result_getMessages _)); cbn; auto. }
  spec_step (fun _ : unit => True).
  { apply (spec_perform G _ E (arcpy_AddMessage _)); cbn; auto. }
  apply spec_addMessage; cbn; auto.
Qed.

Lemma createBuffers_try_spec G (E : exc -> Prop) (fuel : nat)
  (point outLayer distances units : string) :
  host_raises_in h E ->
  (forall name,
     E (mkExc NameError [VStr ("name '" ++ name ++ "' is not defined")])) ->
  spec h G (buffer_event point outLayer distances units) E
    (createBuffers_try h fuel point outLayer distances units) (fun _ => True).
Proof.
  intros HE HN. unfold createBuffers_try.
  spec_step (fun _ : Result => True).
  { apply (spec_perform G _ E (arcpy_MultipleRingBuffer_analysis _ _ _ _));
      cbn; auto. }
  spec_step (fun _ : unit => True).
  { apply spec_while; cbn; auto. }
  spec_step (fun _ : string => True).
  { apply (spec_perform G _ E (result_getMessages _)); cbn; auto. }
  spec_step (fun _ : unit => True).
  { apply (spec_perform G _ E (arcpy_AddMessage _)); cbn; auto. }
  spec_step (fun v => lookup "lat" G = Some v).
  { apply spec_global. destruct (lookup "lat" G); auto. }
  spec_step (fun v => lookup "lon" G = Some v).
  { apply spec_global. destruct (lookup "lon" G); auto. }
  spec_step (fun _ : string => True).
  { eapply spec_str_format; [apply format_created_buffers | exact I]. }
  apply spec_addMessage; cbn; auto.
Qed.

Lemma createSPCPoint_events G (fuel : nat) (lat lon outLayer : string) :
  spec h G (projection_event lat lon outLayer) (fun _ => True)
    (createSPCPoint h fuel lat lon outLayer) (fun _ => True).
Proof.
  unfold createSPCPoint.
  apply spec_try with (E := fun _ => True); auto.
  - apply createSPCPoint_try_spec. intros c w e w' _. exact I.
  - intros e _ _. apply spec_handler; cbn; auto. intros c w e' w' _. exact I.
Qed.

Lemma createBuffers_events G (fuel : nat) (point outLayer distances units : string) :
  spec h G (buffer_event point outLayer distances units) (fun _ => True)
    (createBuffers h fuel point outLayer distances units) (fun _ => True).
Proof.
  unfold createBuffers.
  apply spec_try with (E := fun _ => True); auto.
  - apply createBuffers_try_spec; auto. intros c w e w' _. exact I.
  - intros e _ _. apply spec_handler; cbn; auto. intros c w e' w' _. exact I.
Qed.

Lemma loggable_caught (e : exc) :
  loggable e = true ->
  isinstance_Exception e = true /\ head_is_str (args e) = true.
Proof. unfold loggable. intros H. apply andb_prop in H. exact H. Qed.

(** With a host whose exceptions are all reportable and whose message
    sinks return, neither step lets an exception out. *)
Lemma createSPCPoint_never_raises G (fuel : nat) (lat lon outLayer : string) :
  sinks_return h -> raises_only_loggable h ->
  spec h G (projection_event lat lon outLayer) (fun _ => False)
    (createSPCPoint h fuel lat lon outLayer) (fun _ => True).
Proof.
  intros Hs Hl. unfold createSPCPoint.
  apply spec_try with (E := fun e => loggable e = true).
  - apply createSPCPoint_try_spec. exact Hl.
  - intros e He _. apply spec_handler_loggable; cbn; auto.
    apply loggable_caught, He.
  - intros e He Hi. apply loggable_caught in He as [He _]. congruence.
Qed.

Lemma createBuffers_never_raises G (fuel : nat)
  (point outLayer distances units : string) :
  sinks_return h -> raises_only_loggable h ->
  spec h G (buffer_event point outLayer distances units) (fun _ => False)
    (createBuffers h fuel point outLayer distances units) (fun _ => True).
Proof.
  intros Hs Hl. unfold createBuffers.
  apply spec_try with (E := fun e => loggable e = true).
  - apply createBuffers_try_spec; [exact Hl | reflexivity].
  - intros e He _. apply spec_handler_loggable; cbn; auto.
    apply loggable_caught, He.
  - intros e He Hi. apply loggable_caught in He as [He _]. congruence.
Qed.

End Facts.

(** ** The messaging helper *)

Example stamp_example :
  stamped (mkDatetime 2017 1 1 10 0 0) "hello"
  = "01-01-2017 10:00:00 : hello " ++ nl ++ " " ++ nl.
Proof. reflexivity. Qed.

(** C8. Every call of [addMessage] makes exactly one [arcpy.AddMessage]
    call; its text is the clock's time as month-day-year
    hour:minute:second, the separator " : ", the caller's string and the
    blank-line trailer of the template.  The helper keeps nothing: the
    module's names are untouched, the only state that moves is the host's,
    through that one call, and the call's own result is the helper's. *)
Theorem addMessage_one_stamped_message (h : Host) (message : string)
  (st : pystate h) :
  let t := clock h (world st) in
  let text :=
    pad2 (month t) ++ "-" ++ pad2 (day t) ++ "-" ++ pad4 (year t) ++ " "
    ++ pad2 (hour t) ++ ":" ++ pad2 (minute t) ++ ":" ++ pad2 (second t)
    ++ " : " ++ message ++ " " ++ nl ++ " " ++ nl in
  events_of (addMessage h message st) = [call_ev (arcpy_AddMessage text)] /\
  state_of (addMessage h message st)
  = mkState h (snd (respond h (arcpy_AddMessage text) (world st)))
      (module_globals st) /\
  outcome_of (addMessage h message st)
  = match fst (respond h (arcpy_AddMessage text) (world st)) with
    | inr _ => Return tt
    | inl e => Raise e
    end.
Proof.
  intros t text. rewrite addMessage_run. unfold perform.
  change (stamped (clock h (world st)) message) with text.
  destruct (respond h (arcpy_AddMessage text) (world st)) as [[e|[]] w];
    repeat split; reflexivity.
Qed.

(** ** The handlers *)

(** C9. The handlers evaluate [e.args[0] + '\n \n'] first: for a caught
    exception whose [args] is empty or does not start with a string that
    expression raises ([IndexError] for the empty tuple, [TypeError]
    otherwise), nothing is written, and the new exception leaves
    [createSPCPoint] and [createBuffers]. *)
Theorem handlers_need_string_head (h : Host) (e : exc)
  (Hcaught : isinstance_Exception e = true)
  (Hhead : head_is_str (args e) = false) :
  exc_type (handler_error e)
  = match args e with [] => IndexError | _ => TypeError end /\
  (forall st, except_handler h e st = (Raise (handler_error e), st, [])) /\
  (forall fuel lat lon outLayer st st1 evs,
     createSPCPoint_try h fuel lat lon outLayer st = (Raise e, st1, evs) ->
     createSPCPoint h fuel lat lon outLayer st
     = (Raise (handler_error e), st1, evs)) /\
  (forall fuel point outLayer distances units st st1 evs,
     createBuffers_try h fuel point outLayer distances units st
     = (Raise e, st1, evs) ->
     createBuffers h fuel point outLayer distances units st
     = (Raise (handler_error e), st1, evs)).
Proof.
  split; [|split; [|split]].
  - unfold handler_error. destruct (args e); reflexivity.
  - intros st. apply handler_escapes, Hhead.
  - intros. unfold createSPCPoint. eapply try_escapes; eauto.
  - intros. unfold createBuffers. eapply try_escapes; eauto.
Qed.

Lemma handlers_need_string_head_witness :
  isinstance_Exception permission_denied = true /\
  head_is_str (args permission_denied) = false /\
  outcome_of (createSPCPoint denying_host 5 "40.2" "-77.19" "spc_point"
                (start denying_host 0%nat))
  = Raise (mkExc TypeError
             [VStr "unsupported operand type(s) for +: 'int' and 'str'"]) /\
  outcome_of (createBuffers denying_host 5 "spc_point" "point_buffer"
                "500;1000" "Feet" (start denying_host 0%nat))
  = Raise (mkExc TypeError
             [VStr "unsupported operand type(s) for +: 'int' and 'str'"]).
Proof.
  destruct (handlers_need_string_head denying_host permission_denied
              eq_refl eq_refl) as (_ & _ & H1 & H2).
  split; [reflexivity|]. split; [reflexivity|]. split.
  - erewrite H1 by reflexivity. reflexivity.
  - erewrite H2 by reflexivity. reflexivity.
Defined.

Example handler_on_empty_args :
  except_handler denying_host (mkExc ValueError []) (start denying_host 0%nat)
  = (Raise (mkExc IndexError [VStr "tuple index out of range"]),
     start denying_host 0%nat, []).
Proof. reflexivity. Qed.

(** ** Runs in which the host answers *)

Section Runs.

Variable h : Host.

Lemma perform_events (c : call) (st : pystate h) :
  events_of (perform h c st) = [call_ev c].
Proof.
  unfold perform. destruct (respond h c (world st)) as [[e|a] w]; reflexivity.
Qed.

Lemma SpatialReference_returns (item : Z) (st : pystate h) w' :
  respond h (arcpy_SpatialReference item) (world st) = (inr tt, w') ->
  SpatialReference h item st
  = (Return (mkSpatialReference item), mkState h w' (module_globals st),
     [call_ev (arcpy_SpatialReference item)]).
Proof.
  intros E. unfold SpatialReference.
  rewrite (bind_perform_returns h (arcpy_SpatialReference item) _ st tt w' E).
  reflexivity.
Qed.

Lemma Point_returns (x y : string) (st : pystate h) w' :
  respond h (arcpy_Point x y) (world st) = (inr tt, w') ->
  Point h x y st
  = (Return (mkPoint x y), mkState h w' (module_globals st),
     [call_ev (arcpy_Point x y)]).
Proof.
  intros E. unfold Point.
  rewrite (bind_perform_returns h (arcpy_Point x y) _ st tt w' E).
  reflexivity.
Qed.

Lemma PointGeometry_returns (p : point) (sr : spatial_ref) (st : pystate h) w' :
  respond h (arcpy_PointGeometry p sr) (world st) = (inr tt, w') ->
  PointGeometry h p sr st
  = (Return (mkPointGeometry p sr), mkState h w' (module_globals st),
     [call_ev (arcpy_PointGeometry p sr)]).
Proof.
  intros E. unfold PointGeometry.
  rewrite (bind_perform_returns h (arcpy_PointGeometry p sr) _ st tt w' E).
  reflexivity.
Qed.

Lemma addMessage_returns (message : string) (st : pystate h) w' :
  respond h (arcpy_AddMessage (stamped (clock h (world st)) message)) (world st)
  = (inr tt, w') ->
  addMessage h message st
  = (Return tt, mkState h w' (module_globals st),
     [call_ev (arcpy_AddMessage (stamped (clock h (world st)) message))]).
Proof.
  intros E. rewrite addMessage_run.
  apply (perform_returns h (arcpy_AddMessage _) st tt w' E).
Qed.

Lemma str_format_returns (tpl : string) (fields : list string) s (st : pystate h) :
  format tpl fields = Some s -> str_format h tpl fields st = (Return s, st, []).
Proof. intros E. unfold str_format. rewrite E. reflexivity. Qed.

Ltac run E :=
  rewrite (bind_returns h _ _ _ _ _ _ E);
  cbn [outcome_of state_of events_of fst snd module_globals world]; cbv beta.

Lemma createSPCPoint_try_setup (fuel : nat) (lat lon outLayer : string)
  (st : pystate h) :
  returns_on h (is_projection_setup lat lon) ->
  exists st1 t,
    module_globals st1 = module_globals st /\
    createSPCPoint_try h fuel lat lon outLayer st
    = (outcome_of (project_and_wait h fuel lat lon outLayer st1),
       state_of (project_and_wait h fuel lat lon outLayer st1),
       (setup_events lat lon t
        ++ events_of (project_and_wait h fuel lat lon outLayer st1))%list).
Proof.
  intros Hacc. unfold createSPCPoint_try.
  destruct (Hacc (arcpy_SpatialReference 4326) (world st) eq_refl)
    as ([] & w1 & E1).
  run (SpatialReference_returns _ _ _ E1).
  destruct (Hacc (arcpy_SpatialReference 2272) w1 eq_refl) as ([] & w2 & E2).
  run (SpatialReference_returns 2272 (mkState h w1 (module_globals st)) _ E2).
  assert (Hp : is_projection_setup lat lon (arcpy_Point lon lat) = true).
  { cbn. rewrite !String.eqb_refl. reflexivity. }
  destruct (Hacc (arcpy_Point lon lat) w2 Hp) as ([] & w3 & E3).
  run (Point_returns lon lat (mkState h w2 (module_globals st)) _ E3).
  destruct (Hacc (arcpy_PointGeometry (mkPoint lon lat) (mkSpatialReference 4326))
              w3 eq_refl) as ([] & w4 & E4).
  run (PointGeometry_returns _ _ (mkState h w3 (module_globals st)) _ E4).
  run (str_format_returns _ _ _ (mkState h w4 (module_globals st))
         (format_created_point lat lon)).
  destruct (Hacc (arcpy_AddMessage
                    (stamped (clock h w4)
                       ("Created WGS 1984 point for latitude: " ++ lat
                        ++ " and longitude " ++ lon ++ "."))) w4 eq_refl)
    as ([] & w5 & E5).
  run (addMessage_returns _ (mkState h w4 (module_globals st)) _ E5).
  exists (mkState h w5 (module_globals st)), (clock h w4).
  split; reflexivity.
Qed.

(** ** The polling loop *)


Lemma bind_Return_inv {A B} (m : M h A) (k : A -> M h B) st b st2 evs :
  bind m k st = (Return b, st2, evs) ->
  exists a st1 evs1 evs2,
    m st = (Return a, st1, evs1) /\ k a st1 = (Return b, st2, evs2) /\
    evs = (evs1 ++ evs2)%list.
Proof.
  unfold bind. destruct (m st) as [[[a|e|] st1] evs1]; try discriminate.
  destruct (k a st1) as [[o st2'] evs2] eqn:Ek. intros H.
  injection H as -> -> <-. exists a, st1, evs1, evs2. auto.
Qed.

Lemma perform_Return_inv (c : call) (st st1 : pystate h) a evs :
  perform h c st = (Return a, st1, evs) ->
  exists w', respond h c (world st) = (inr a, w') /\
             st1 = mkState h w' (module_globals st) /\ evs = [call_ev c].
Proof.
  unfold perform. destruct (respond h c (world st)) as [[e|a'] w];
    try discriminate.
  intros H. injection H as -> <- <-. exists w. auto.
Qed.







(** ** Inversions used for the buffer step *)

Lemma global_Return_inv (name : string) (st st1 : pystate h) v evs :
  global h name st = (Return v, st1, evs) ->
  lookup name (module_globals st) = Some v /\ st1 = st /\ evs = [].
Proof.
  unfold global. destruct (lookup name (module_globals st)); try discriminate.
  intros H. injection H as -> <- <-. auto.
Qed.

Lemma while_keeps_globals (fuel : nat) (r : Result) (st : pystate h) :
  module_globals (state_of (while_status_lt_4 h fuel r st)) = module_globals st.
Proof.
  destruct (spec_while h (module_globals st) (fun _ => True) (fun _ => True)
              fuel r) with (st := st) as (_ & H & _); auto.
  intros c w e w' _. exact I.
Qed.

Lemma handler_Return_logs (e : exc) (st st' : pystate h) evs :
  except_handler h e st = (Return tt, st', evs) ->
  existsb is_AddError evs = true.
Proof.
  destruct (head_is_str (args e)) eqn:Hh.
  - unfold except_handler. destruct (args e) as [|[| m |z] rest]; try discriminate.
    cbn [getitem0]. rewrite bind_ret_l. cbn [add_str]. rewrite bind_ret_l.
    intros H.
    apply bind_Return_inv in H as (a & st1 & evs1 & evs2 & Hp & _ & ->).
    apply perform_Return_inv in Hp as (w1 & _ & _ & ->). reflexivity.
  - rewrite (handler_escapes h e st Hh). discriminate.
Qed.

Lemma createBuffers_try_success (fuel : nat)
  (point outLayer distances units : string) (st st' : pystate h) evs la lo :
  lookup "lat" (module_globals st) = Some la ->
  lookup "lon" (module_globals st) = Some lo ->
  createBuffers_try h fuel point outLayer distances units st
  = (Return tt, st', evs) ->
  exists evs0 t,
    evs = (evs0 ++
           [call_ev (arcpy_AddMessage
              (stamped t ("Created buffer(s) around location latitude: " ++ la
                          ++ "; longitude: " ++ lo ++ ".")))])%list.
Proof.
  intros Hla Hlo H. unfold createBuffers_try in H.
  apply bind_Return_inv in H as (r & st1 & e1 & e1' & H1 & H & ->).
  apply perform_Return_inv in H1 as (w1 & _ & -> & ->).
  apply bind_Return_inv in H as ([] & st2 & e2 & e2' & H2 & H & ->).
  assert (G2 : module_globals st2 = module_globals st).
  { pose proof (while_keeps_globals fuel r (mkState h w1 (module_globals st))) as K.
    rewrite H2 in K. exact K. }
  apply bind_Return_inv in H as (rv & st3 & e3 & e3' & H3 & H & ->).
  apply perform_Return_inv in H3 as (w3 & _ & -> & ->).
  apply bind_Return_inv in H as ([] & st4 & e4 & e4' & H4 & H & ->).
  apply perform_Return_inv in H4 as (w4 & _ & -> & ->).
  apply bind_Return_inv in H as (la' & st5 & e5 & e5' & H5 & H & ->).
  apply global_Return_inv in H5 as (L5 & -> & ->). cbn [module_globals] in L5.
  apply bind_Return_inv in H as (lo' & st6 & e6 & e6' & H6 & H & ->).
  apply global_Return_inv in H6 as (L6 & -> & ->). cbn [module_globals] in L6.
  rewrite G2 in L5, L6. rewrite Hla in L5. rewrite Hlo in L6.
  injection L5 as <-. injection L6 as <-.
  apply bind_Return_inv in H as (msg & st7 & e7 & e7' & H7 & H & ->).
  rewrite (str_format_returns _ _ _ _ (format_created_buffers la lo)) in H7.
  injection H7 as <- <- <-.
  rewrite addMessage_run in H.
  apply (perform_Return_inv (arcpy_AddMessage _) _ _ tt) in H
    as (w8 & _ & _ & ->).
  exists (call_ev (arcpy_MultipleRingBuffer_analysis point outLayer distances units)
          :: e2 ++ [call_ev (result_getMessages r);
                    call_ev (arcpy_AddMessage (rv ++ blank_lines))])%list.
  eexists. cbn [app]. rewrite <- app_assoc. reflexivity.
Qed.

(** ** A projection that is refused *)

Lemma createSPCPoint_try_rejected (fuel : nat) (lat lon outLayer : string)
  (st : pystate h) :
  (forall w, exists e w', respond h (arcpy_Point lon lat) w = (inl e, w')) ->
  exists e st1 evs c w w',
    createSPCPoint_try h fuel lat lon outLayer st = (Raise e, st1, evs) /\
    respond h c w = (inl e, w') /\
    existsb is_Project evs = false.
Proof.
  intros Hrej. unfold createSPCPoint_try, SpatialReference, Point.
  destruct (respond h (arcpy_SpatialReference 4326) (world st))
    as [[e|[]] w1] eqn:E1.
  { rewrite (bind_raises h _ _ _ _ _ _
               (bind_perform_raises h (arcpy_SpatialReference 4326) _ st e w1 E1)).
    repeat eexists; eauto. }
  rewrite (bind_returns h _ _ _ _ _ _
             (SpatialReference_returns 4326 st w1 E1)).
  fold (SpatialReference h 2272).
  cbn [outcome_of state_of events_of fst snd module_globals world]; cbv beta.
  unfold SpatialReference.
  destruct (respond h (arcpy_SpatialReference 2272) w1) as [[e|[]] w2] eqn:E2.
  { rewrite (bind_raises h _ _ _ _ _ _
               (bind_perform_raises h (arcpy_SpatialReference 2272) _
                  (mkState h w1 (module_globals st)) e w2 E2)).
    repeat eexists; eauto. }
  rewrite (bind_returns h _ _ _ _ _ _
             (SpatialReference_returns 2272 (mkState h w1 (module_globals st))
                w2 E2)).
  cbn [outcome_of state_of events_of fst snd module_globals world]; cbv beta.
  destruct (Hrej w2) as (e & w3 & E3).
  rewrite (bind_raises h _ _ _ _ _ _
             (bind_perform_raises h (arcpy_Point lon lat) _
                (mkState h w2 (module_globals st)) e w3 E3)).
  repeat eexists; eauto.
Qed.

End Runs.

(** ** Facts about the demo hosts *)

Lemma demo_host_accepts (sc : scenario) (lat0 lat lon : string) :
  is_numeric lat = true -> is_numeric lon = true ->
  returns_on (demo_host sc lat0) (is_projection_setup lat lon).
Proof.
  intros Hlat Hlon c w Hc. destruct c; try discriminate Hc;
    try (exists tt, w; reflexivity).
  cbn in Hc. apply andb_prop in Hc as [Hx Hy].
  apply String.eqb_eq in Hx, Hy. subst.
  exists tt, w. cbn. rewrite Hlat, Hlon. reflexivity.
Qed.

Lemma demo_host_sinks (sc : scenario) (lat0 : string) :
  sinks_return (demo_host sc lat0).
Proof.
  intros c w Hc. destruct c; try discriminate Hc; exists tt, w; reflexivity.
Qed.


Lemma demo_host_loggable (sc : scenario) (lat0 : string) :
  (forall e, project_fails sc = Some e -> loggable e = true) ->
  (forall e, buffer_fails sc = Some e -> loggable e = true) ->
  (forall e, sleep_fails sc = Some e -> loggable e = true) ->
  raises_only_loggable (demo_host sc lat0).
Proof.
  intros Hp Hb Hz c w e w' H. destruct c; cbn in H; try discriminate H.
  - destruct (is_numeric x && is_numeric y); [discriminate H|].
    injection H as <- _. reflexivity.
  - destruct (project_fails sc) as [e0|] eqn:E; [|discriminate H].
    injection H as <- _. apply Hp. reflexivity.
  - destruct (buffer_fails sc) as [e0|] eqn:E; [|discriminate H].
    injection H as <- _. apply Hb. reflexivity.
  - destruct (sleep_fails sc) as [e0|] eqn:E; [|discriminate H].
    injection H as <- _. apply Hz. reflexivity.
Qed.

Lemma demo_host_rejects (sc : scenario) (lat0 : string) (x y : string) (w : nat) :
  is_numeric y = false ->
  exists e w', respond (demo_host sc lat0) (arcpy_Point x y) w = (inl e, w').
Proof.
  intros Hy. cbn. rewrite Hy, andb_false_r. eauto.
Qed.


(** ** The projection step *)

(** C4. Whatever the latitude, longitude and output layer, every
    [PointGeometry] that [createSPCPoint] builds is the point
    (lon, lat) in reference 4326 (WGS 1984), and every projection it asks
    for is of that geometry to reference 2272 (PA State Plane South,
    feet) by the method "NAD_1983_To_WGS_1984_1"; the only references it
    creates are these two.  When the host accepts the calls that come
    first, the projection is asked for. *)
Theorem createSPCPoint_fixed_references (h : Host) (fuel : nat)
  (lat lon outLayer : string) (st : pystate h) :
  Forall (projection_event lat lon outLayer)
    (events_of (createSPCPoint h fuel lat lon outLayer st)) /\
  (returns_on h (is_projection_setup lat lon) ->
   In (call_ev (arcpy_Project_management
                  (mkPointGeometry (mkPoint lon lat) (mkSpatialReference 4326))
                  outLayer (mkSpatialReference 2272)
                  "NAD_1983_To_WGS_1984_1" "PRESERVE_SHAPE"))
      (events_of (createSPCPoint h fuel lat lon outLayer st))).
Proof.
  split.
  - apply (createSPCPoint_events h (module_globals st) fuel lat lon outLayer st
             eq_refl).
  - intros Ha. unfold createSPCPoint. rewrite try_events.
    apply in_or_app; left.
    destruct (createSPCPoint_try_setup h fuel lat lon outLayer st Ha)
      as (st1 & t & _ & ->).
    cbn [events_of snd]. apply in_or_app; right.
    unfold project_and_wait. rewrite bind_events, perform_events.
    left. reflexivity.
Qed.

Lemma createSPCPoint_fixed_references_witness :
  In (call_ev (arcpy_Project_management
                 (mkPointGeometry (mkPoint "-77.19" "40.2")
                    (mkSpatialReference 4326))
                 "spc_point" (mkSpatialReference 2272)
                 "NAD_1983_To_WGS_1984_1" "PRESERVE_SHAPE"))
     (events_of (createSPCPoint (demo_host nominal "40.2") 5 "40.2" "-77.19"
                   "spc_point" (start (demo_host nominal "40.2") 2%nat))).
Proof.
  apply (createSPCPoint_fixed_references (demo_host nominal "40.2") 5
           "40.2" "-77.19" "spc_point").
  apply demo_host_accepts; reflexivity.
Defined.

(** C2. On a host whose [Point] refuses a latitude that is not numeric,
    that raises only exceptions of class [Exception] carrying a string
    message, and whose message sinks return, [createSPCPoint] with a
    non-numeric latitude returns normally: it writes the exception's
    message and the generic error text with [AddError], and never asks
    for the projection. *)
Theorem non_numeric_latitude_is_logged (h : Host) (numeric : string -> bool)
  (fuel : nat) (lat lon outLayer : string) (st : pystate h)
  (Hpoint : forall x y w, numeric y = false ->
              exists e w', respond h (arcpy_Point x y) w = (inl e, w'))
  (Hlog : raises_only_loggable h)
  (Hsinks : sinks_return h)
  (Hlat : numeric lat = false) :
  exists evs m st',
    createSPCPoint h fuel lat lon outLayer st
    = (Return tt, st', (evs ++ error_report m)%list) /\
    existsb is_Project evs = false.
Proof.
  destruct (createSPCPoint_try_rejected h fuel lat lon outLayer st)
    as (e & st1 & evs & c & w & w' & Hb & Hr & Hp).
  { intros w. apply Hpoint, Hlat. }
  destruct (try_reports h _ st e st1 evs Hsinks Hb (Hlog c w e w' Hr))
    as (st2 & Ht).
  exists evs, (message_of e), st2. split; [exact Ht | exact Hp].
Qed.

Lemma non_numeric_latitude_is_logged_witness :
  is_numeric "abc" = false /\
  exists evs m st',
    createSPCPoint (demo_host nominal "abc") 5 "abc" "-77.19" "spc_point"
      (start (demo_host nominal "abc") 2%nat)
    = (Return tt, st', (evs ++ error_report m)%list) /\
    existsb is_Project evs = false.
Proof.
  split; [reflexivity|].
  apply (non_numeric_latitude_is_logged (demo_host nominal "abc") is_numeric).
  - intros x y w Hy. apply demo_host_rejects, Hy.
  - apply demo_host_loggable; discriminate.
  - apply demo_host_sinks.
  - reflexivity.
Defined.

Example non_numeric_latitude_run :
  createSPCPoint (demo_host nominal "abc") 5 "abc" "-77.19" "spc_point"
    (start (demo_host nominal "abc") 2%nat)
  = (Return tt, start (demo_host nominal "abc") 2%nat,
     [call_ev (arcpy_SpatialReference 4326);
      call_ev (arcpy_SpatialReference 2272);
      call_ev (arcpy_Point "-77.19" "abc")]
     ++ error_report "Point: Input value is not numeric")%list.
Proof. reflexivity. Qed.

(** ** The module as a whole *)

Section Script.

Variable h : Host.

Lemma acquire_parameters_run (st : pystate h) :
  acquire_parameters h st
  = (Return tt, mkState h (world st) (bindings h ++ module_globals st)%list,
     parameter_reads).
Proof. reflexivity. Qed.

Lemma bound_bindings (g : list (string * string)) : bound h (bindings h ++ g)%list.
Proof. repeat split; reflexivity. Qed.

Lemma global_returns (name : string) (st : pystate h) v :
  lookup name (module_globals st) = Some v ->
  global h name st = (Return v, st, []).
Proof. intros E. unfold global. rewrite E. reflexivity. Qed.

Lemma run_tools_spec G (E : exc -> Prop) (fuel : nat) :
  bound h G ->
  (forall message,
     spec h G (step_event h) E (addMessage h message) (fun _ => True)) ->
  spec h G (projection_event (dialog h 0) (dialog h 1) (dialog h 2)) E
    (createSPCPoint h fuel (dialog h 0) (dialog h 1) (dialog h 2))
    (fun _ => True) ->
  spec h G (buffer_event (dialog h 2) (dialog h 5) (dialog h 3) (dialog h 4)) E
    (createBuffers h fuel (dialog h 2) (dialog h 5) (dialog h 3) (dialog h 4))
    (fun _ => True) ->
  spec h G (step_event h) E (run_tools h fuel) (fun _ => True).
Proof.
  intros (Hlat & Hlon & Hspc & Hdist & Hunits & Hbuf) Hmsg H1 H2.
  unfold run_tools.
  apply spec_bind with (R := fun _ => True); [apply Hmsg | intros _ _].
  apply spec_bind with (R := fun v => v = dialog h 0);
    [apply spec_global; rewrite Hlat; reflexivity | intros ? ->].
  apply spec_bind with (R := fun v => v = dialog h 1);
    [apply spec_global; rewrite Hlon; reflexivity | intros ? ->].
  apply spec_bind with (R := fun v => v = dialog h 2);
    [apply spec_global; rewrite Hspc; reflexivity | intros ? ->].
  apply spec_bind with (R := fun _ => True).
  { eapply spec_weaken; [apply H1 | | auto | auto]. intros ev; left; auto. }
  intros _ _.
  apply spec_bind with (R := fun v => v = dialog h 2);
    [apply spec_global; rewrite Hspc; reflexivity | intros ? ->].
  apply spec_bind with (R := fun v => v = dialog h 5);
    [apply spec_global; rewrite Hbuf; reflexivity | intros ? ->].
  apply spec_bind with (R := fun v => v = dialog h 3);
    [apply spec_global; rewrite Hdist; reflexivity | intros ? ->].
  apply spec_bind with (R := fun v => v = dialog h 4);
    [apply spec_global; rewrite Hunits; reflexivity | intros ? ->].
  apply spec_bind with (R := fun _ => True).
  { eapply spec_weaken; [apply H2 | | auto | auto]. intros ev; right; auto. }
  intros _ _. apply Hmsg.
Qed.

Lemma script_run (fuel : nat) (st : pystate h) :
  script h fuel st
  = (outcome_of (run_tools h fuel
                   (mkState h (world st) (bindings h ++ module_globals st)%list)),
     state_of (run_tools h fuel
                 (mkState h (world st) (bindings h ++ module_globals st)%list)),
     (parameter_reads
      ++ events_of (run_tools h fuel
                      (mkState h (world st) (bindings h ++ module_globals st)%list)))
       %list).
Proof.
  unfold script.
  rewrite (bind_returns h _ _ _ _ _ _ (acquire_parameters_run st)).
  reflexivity.
Qed.

Lemma run_tools_events (fuel : nat) (st : pystate h) :
  bound h (module_globals st) ->
  Forall (step_event h) (events_of (run_tools h fuel st)).
Proof.
  intros Hb.
  destruct (run_tools_spec (module_globals st) (fun _ => True) fuel Hb)
    with (st := st) as (H & _); auto.
  - intros message. apply spec_addMessage.
    + intros s. left. exact I.
    + intros c w e w' _. exact I.
  - apply createSPCPoint_events.
  - apply createBuffers_events.
Qed.

Lemma spec_addMessage_sinks G P (message : string) :
  sinks_return h -> (forall s, P (call_ev (arcpy_AddMessage s))) ->
  spec h G P (fun _ => False) (addMessage h message) (fun _ => True).
Proof.
  intros Hs HP st HG.
  destruct (Hs (arcpy_AddMessage (stamped (clock h (world st)) message))
              (world st) eq_refl) as ([] & w' & E).
  rewrite (addMessage_returns h message st w' E). cbn.
  repeat split; auto.
Qed.

(** With reportable exceptions only and sinks that return, nothing is
    raised out of the module. *)
Lemma run_tools_never_raises (fuel : nat) (st : pystate h) :
  sinks_return h -> raises_only_loggable h -> bound h (module_globals st) ->
  outcome_of (run_tools h fuel st) = Return tt \/
  outcome_of (run_tools h fuel st) = OutOfFuel.
Proof.
  intros Hs Hl Hb.
  destruct (run_tools_spec (module_globals st) (fun _ => False) fuel Hb)
    with (st := st) as (_ & _ & H); auto.
  - intros message. apply spec_addMessage_sinks; auto. intros s. left. exact I.
  - apply createSPCPoint_never_raises; auto.
  - apply createBuffers_never_raises; auto.
  - destruct (outcome_of (run_tools h fuel st)) as [[]|e|]; auto. contradiction.
Qed.

End Script.

(** ** The polling loops *)



(** ** The buffer step *)

(** Line 146 as the module reaches it: when the opening message is
    written and [createSPCPoint] returns, the next call is the buffer
    operation on the dialog's strings. *)
Lemma script_reaches_buffers (h : Host) (fuel : nat) (st : pystate h)
  (w1 : World h) (st3 : pystate h) (evs3 : list event) :
  respond h (arcpy_AddMessage (stamped (clock h (world st)) opening_message))
    (world st) = (inr tt, w1) ->
  createSPCPoint h fuel (dialog h 0) (dialog h 1) (dialog h 2) (at_line_143 h st)
  = (Return tt, st3, evs3) ->
  exists rest,
    events_of (script h fuel st)
    = (parameter_reads
       ++ [call_ev (arcpy_AddMessage
                      (stamped (clock h (world st)) opening_message))]
       ++ evs3
       ++ call_ev (arcpy_MultipleRingBuffer_analysis
                     (dialog h 2) (dialog h 5) (dialog h 3) (dialog h 4))
          :: rest)%list.
Proof.
  intros E0 E1. rewrite script_run. cbn [events_of snd].
  set (G := (bindings h ++ module_globals st)%list).
  destruct (bound_bindings h (module_globals st))
    as (Hlat & Hlon & Hspc & Hdist & Hunits & Hbuf).
  fold G in Hlat, Hlon, Hspc, Hdist, Hunits, Hbuf.
  assert (Hst : at_line_143 h st = mkState h w1 G).
  { unfold at_line_143. fold opening_message. rewrite E0. reflexivity. }
  rewrite Hst in E1. clear Hst.
  destruct (createSPCPoint_events h G fuel (dialog h 0) (dialog h 1)
              (dialog h 2) (mkState h w1 G) eq_refl) as (_ & HG & _).
  rewrite E1 in HG. cbn [state_of fst snd] in HG.
  unfold run_tools. fold opening_message.
  rewrite (bind_returns h _ _ _ _ _ _
             (addMessage_returns h _ (mkState h (world st) G) w1 E0)).
  cbn [outcome_of state_of events_of fst snd module_globals world]; cbv beta.
  rewrite (bind_returns h _ _ _ _ _ _
             (global_returns h "lat" (mkState h w1 G) _ Hlat)).
  cbn [outcome_of state_of events_of fst snd module_globals world]; cbv beta.
  rewrite (bind_returns h _ _ _ _ _ _
             (global_returns h "lon" (mkState h w1 G) _ Hlon)).
  cbn [outcome_of state_of events_of fst snd module_globals world]; cbv beta.
  rewrite (bind_returns h _ _ _ _ _ _
             (global_returns h "spcPoint" (mkState h w1 G) _ Hspc)).
  cbn [outcome_of state_of events_of fst snd module_globals world]; cbv beta.
  rewrite (bind_returns h _ _ _ _ _ _ E1).
  cbn [outcome_of state_of events_of fst snd module_globals world]; cbv beta.
  rewrite <- HG in Hspc, Hbuf, Hdist, Hunits.
  rewrite (bind_returns h _ _ _ _ _ _ (global_returns h "spcPoint" st3 _ Hspc)).
  cbn [outcome_of state_of events_of fst snd module_globals world]; cbv beta.
  rewrite (bind_returns h _ _ _ _ _ _ (global_returns h "pointBuffer" st3 _ Hbuf)).
  cbn [outcome_of state_of events_of fst snd module_globals world]; cbv beta.
  rewrite (bind_returns h _ _ _ _ _ _ (global_returns h "buffDist" st3 _ Hdist)).
  cbn [outcome_of state_of events_of fst snd module_globals world]; cbv beta.
  rewrite (bind_returns h _ _ _ _ _ _ (global_returns h "buffUnits" st3 _ Hunits)).
  cbn [outcome_of state_of events_of fst snd module_globals world]; cbv beta.
  rewrite bind_events. unfold createBuffers at 1. rewrite try_events.
  unfold createBuffers_try at 1. rewrite bind_events, perform_events.
  cbn [app]. eexists. rewrite <- !app_assoc. cbn [app]. reflexivity.
Qed.

(** C6. [createBuffers] starts by calling the multi-ring buffer operation
    with its own four arguments, and every such call it makes has exactly
    them.  In the module, once the opening message is written and
    [createSPCPoint] has returned, the very next call is the multi-ring
    buffer operation with, as distances and unit, the strings read from
    the dialog at indices 3 and 4 (and as input and output the ones at 2
    and 5), character for character; and no buffer call of the module
    carries anything else. *)
Theorem buffer_strings_pass_verbatim (h : Host) (fuel : nat)
  (point outLayer distances units : string) (st : pystate h) :
  hd_error (events_of (createBuffers h fuel point outLayer distances units st))
  = Some (call_ev (arcpy_MultipleRingBuffer_analysis
                     point outLayer distances units)) /\
  Forall (buffer_call_is point outLayer distances units)
    (events_of (createBuffers h fuel point outLayer distances units st)) /\
  Forall (buffer_call_is (dialog h 2) (dialog h 5) (dialog h 3) (dialog h 4))
    (events_of (script h fuel st)) /\
  (forall w1 st3 evs3,
     respond h (arcpy_AddMessage (stamped (clock h (world st)) opening_message))
       (world st) = (inr tt, w1) ->
     createSPCPoint h fuel (dialog h 0) (dialog h 1) (dialog h 2)
       (at_line_143 h st) = (Return tt, st3, evs3) ->
     exists rest,
       events_of (script h fuel st)
       = (parameter_reads
          ++ [call_ev (arcpy_AddMessage
                         (stamped (clock h (world st)) opening_message))]
          ++ evs3
          ++ call_ev (arcpy_MultipleRingBuffer_analysis
                        (dialog h 2) (dialog h 5) (dialog h 3) (dialog h 4))
             :: rest)%list).
Proof.
  split; [|split; [|split]].
  - unfold createBuffers. rewrite try_events. unfold createBuffers_try.
    rewrite bind_events, perform_events. reflexivity.
  - eapply Forall_impl;
      [| apply (createBuffers_events h (module_globals st) fuel point outLayer
                  distances units st eq_refl)].
    intros [i|c] H; [exact I|]. destruct c; cbn in *; auto.
  - rewrite script_run. cbn [events_of snd]. apply Forall_app. split.
    + repeat constructor.
    + eapply Forall_impl; [| apply run_tools_events, bound_bindings].
      intros [i|c] [H|H]; try exact I; destruct c; cbn in *; auto;
        contradiction.
  - intros w1 st3 evs3. apply script_reaches_buffers.
Qed.

(** On a run: the distances "500;1000" and the unit "Feet" typed in the
    dialog are the ones of the buffer call, right after the projection
    step. *)
Lemma buffer_strings_pass_verbatim_witness :
  exists rest,
    events_of (script (demo_host nominal "40.2") 5
                 (start (demo_host nominal "40.2") 2%nat))
    = (parameter_reads
       ++ [call_ev (arcpy_AddMessage
                      (stamped (mkDatetime 2017 2 13 10 0 0) opening_message))]
       ++ events_of
            (createSPCPoint (demo_host nominal "40.2") 5 "40.2" "-77.19"
               "spc_point"
               (at_line_143 (demo_host nominal "40.2")
                  (start (demo_host nominal "40.2") 2%nat)))
       ++ call_ev (arcpy_MultipleRingBuffer_analysis
                     "spc_point" "point_buffer" "500;1000" "Feet")
          :: rest)%list.
Proof.
  destruct (buffer_strings_pass_verbatim (demo_host nominal "40.2") 5
              "spc_point" "point_buffer" "500;1000" "Feet"
              (start (demo_host nominal "40.2") 2%nat)) as (_ & _ & _ & H).
  eapply (H 2%nat). 
  - reflexivity.
  - vm_compute. reflexivity.
Defined.

(** C10. When [createBuffers] returns without having written an error,
    the last thing it wrote is the success message, and the coordinates
    in it are the values of the module's names [lat] and [lon]: the
    [point] argument, whatever it is, does not appear in the message. *)
Theorem createBuffers_reports_module_coordinates (h : Host) (fuel : nat)
  (point outLayer distances units : string) (st st' : pystate h)
  (evs : list event) (la lo : string)
  (Hlat : lookup "lat" (module_globals st) = Some la)
  (Hlon : lookup "lon" (module_globals st) = Some lo)
  (Hrun : createBuffers h fuel point outLayer distances units st
          = (Return tt, st', evs))
  (Hclean : existsb is_AddError evs = false) :
  exists evs0 t,
    evs = (evs0 ++
           [call_ev (arcpy_AddMessage
              (stamped t ("Created buffer(s) around location latitude: " ++ la
                          ++ "; longitude: " ++ lo ++ ".")))])%list.
Proof.
  unfold createBuffers, try_except_Exception in Hrun.
  destruct (createBuffers_try h fuel point outLayer distances units st)
    as [[[[]|e|] st1] evs1] eqn:Eb.
  - injection Hrun as <- <-.
    eapply createBuffers_try_success; eauto.
  - destruct (isinstance_Exception e); [|discriminate Hrun].
    destruct (except_handler h e st1) as [[o2 st2] evs2] eqn:Eh.
    injection Hrun as -> <- <-.
    apply handler_Return_logs in Eh.
    rewrite existsb_app, Eh, orb_true_r in Hclean. discriminate Hclean.
  - discriminate Hrun.
Qed.

Lemma createBuffers_reports_module_coordinates_witness :
  exists evs0 t,
    events_of (createBuffers (demo_host nominal "40.2") 5 "another_layer"
                 "point_buffer" "500;1000" "Feet"
                 (bound_state (demo_host nominal "40.2") 1%nat))
    = (evs0 ++
       [call_ev (arcpy_AddMessage
          (stamped t ("Created buffer(s) around location latitude: " ++ "40.2"
                      ++ "; longitude: " ++ "-77.19" ++ ".")))])%list.
Proof.
  eapply (createBuffers_reports_module_coordinates (demo_host nominal "40.2") 5
            "another_layer" "point_buffer" "500;1000" "Feet"
            (bound_state (demo_host nominal "40.2") 1%nat)).
  - reflexivity.
  - reflexivity.
  - reflexivity.
  - reflexivity.
Defined.

(** ** Parameter acquisition *)

(** C5, as stated, on a run: the dialog is read six times, not five. *)
Lemma five_parameters_counterexample :
  length (filter is_GetParameterAsText
            (events_of (script (demo_host nominal "40.2") 5
                          (start (demo_host nominal "40.2") 2%nat))))
  = 6%nat /\
  length (filter is_GetParameterAsText
            (events_of (script (demo_host nominal "40.2") 5
                          (start (demo_host nominal "40.2") 2%nat))))
  <> 5%nat.
Proof. split; vm_compute; [reflexivity | discriminate]. Qed.

(** C5 (as the code has it). The module reads exactly six parameters from
    the dialog, those at indices 0 to 5, once each and in that order,
    before anything else, and binds them to [lat], [lon], [spcPoint],
    [buffDist], [buffUnits] and [pointBuffer]; nothing later reads a
    parameter. *)
Theorem six_parameters_acquired (h : Host) (fuel : nat) (st : pystate h) :
  acquire_parameters h st
  = (Return tt,
     mkState h (world st)
       ([("pointBuffer", dialog h 5); ("buffUnits", dialog h 4);
         ("buffDist", dialog h 3); ("spcPoint", dialog h 2);
         ("lon", dialog h 1); ("lat", dialog h 0)] ++ module_globals st)%list,
     map GetParameterAsText_ev [0; 1; 2; 3; 4; 5]) /\
  (exists rest,
     events_of (script h fuel st)
     = (map GetParameterAsText_ev [0; 1; 2; 3; 4; 5] ++ rest)%list /\
     filter is_GetParameterAsText rest = []) /\
  length (filter is_GetParameterAsText (events_of (script h fuel st))) = 6%nat.
Proof.
  assert (Hrest : filter is_GetParameterAsText
                    (events_of (run_tools h fuel
                       (mkState h (world st)
                          (bindings h ++ module_globals st)%list))) = []).
  { pose proof (run_tools_events h fuel
                  (mkState h (world st) (bindings h ++ module_globals st)%list)
                  (bound_bindings h _)) as H.
    induction H as [|ev evs Hev _ IH]; [reflexivity|].
    cbn [filter]. rewrite IH.
    destruct ev as [i|c]; [destruct Hev as [[]|[]] | reflexivity]. }
  split; [reflexivity|]. split.
  - rewrite script_run. cbn [events_of snd]. eexists. split; [reflexivity|].
    exact Hrest.
  - rewrite script_run. cbn [events_of snd]. rewrite filter_app, Hrest.
    reflexivity.
Qed.

(** ** Failures and termination *)

Section Continuation.

Variable h : Host.
Hypothesis Hsinks : sinks_return h.
Hypothesis Hlog : raises_only_loggable h.



End Continuation.

Lemma failing_host_loggable : raises_only_loggable failing_host.
Proof.
  apply demo_host_loggable; cbn; intros e H; try discriminate H.
  injection H as <-. reflexivity.
Qed.




Example failed_projection_run :
  createSPCPoint failing_host 5 "40.2" "-77.19" "spc_point"
    (start failing_host 0%nat)
  = (Return tt, start failing_host 0%nat,
     (setup_events "40.2" "-77.19" (mkDatetime 2017 2 13 10 0 0)
      ++ [call_ev (arcpy_Project_management
                     (mkPointGeometry (mkPoint "-77.19" "40.2")
                        (mkSpatialReference 4326))
                     "spc_point" (mkSpatialReference 2272)
                     "NAD_1983_To_WGS_1984_1" "PRESERVE_SHAPE")]
      ++ error_report "ERROR 000732: dataset does not exist")%list).
Proof. vm_compute. reflexivity. Qed.

(** C7, as stated, on two runs: an exception that leaves the module ends
    the run with a status that is not the one of success. *)
Lemma status_like_success_counterexample :
  exits_as_success
    (outcome_of (script interrupted_host 5 (start interrupted_host 2%nat)))
  = Some false /\
  exits_as_success
    (outcome_of (script denying_host 5 (start denying_host 0%nat)))
  = Some false /\
  exits_as_success
    (outcome_of (script (demo_host nominal "40.2") 5
                   (start (demo_host nominal "40.2") 2%nat)))
  = Some true.
Proof. repeat split; vm_compute; reflexivity. Qed.

(** C7 (as the code has it). The module has no exit call.  On a host that
    raises only exceptions of class [Exception] whose first argument is a
    string, and whose message sinks return, a run that ends has run the
    module to its last line and ends with the status of success, whether
    or not a step failed: a failure shows only in what was written with
    [AddError]. *)
Theorem reported_failures_keep_status (h : Host)
  (Hsinks : sinks_return h) (Hlog : raises_only_loggable h)
  (fuel : nat) (st : pystate h) :
  (outcome_of (script h fuel st) = Return tt /\
   exits_as_success (outcome_of (script h fuel st)) = Some true) \/
  outcome_of (script h fuel st) = OutOfFuel.
Proof.
  rewrite script_run. cbn [outcome_of fst].
  destruct (run_tools_never_raises h fuel
              (mkState h (world st) (bindings h ++ module_globals st)%list)
              Hsinks Hlog (bound_bindings h _)) as [H|H]; rewrite H; auto.
Qed.

Lemma reported_failures_keep_status_witness :
  existsb is_AddError
    (events_of (script failing_host 5 (start failing_host 0%nat))) = true /\
  exits_as_success (outcome_of (script failing_host 5 (start failing_host 0%nat)))
  = Some true.
Proof.
  split; [vm_compute; reflexivity|].
  destruct (reported_failures_keep_status failing_host
              (demo_host_sinks _ _) failing_host_loggable 5
              (start failing_host 0%nat)) as [[_ H]|H].
  - exact H.
  - vm_compute in H. discriminate H.
Defined.

(** * Further properties of the script *)

(** ** The shape of a wait *)

(** X1. A wait that ends has read the status, slept 0.2 s and read
    again, some number of times smaller than the bound, and ends on a
    status read: it never sleeps after the read that ends it, and it
    leaves the module's names alone. *)
Theorem wait_is_rounds_then_a_read (h : Host) (fuel : nat) (r : Result)
  (st st' : pystate h) (evs : list event)
  (Hrun : while_status_lt_4 h fuel r st = (Return tt, st', evs)) :
  exists k,
    (k < fuel)%nat /\
    evs = (concat (repeat (waiting_round r) k) ++ [call_ev (result_status r)])%list /\
    module_globals st' = module_globals st.
Proof.
  revert st evs Hrun. induction fuel as [|n IH]; intros st evs;
    cbn [while_status_lt_4].
  - unfold out_of_fuel. discriminate.
  - intros H.
    apply bind_Return_inv in H as (s & st1 & evs1 & evs2 & Hp & Hk & ->).
    apply perform_Return_inv in Hp as (w1 & Es & -> & ->).
    destruct (s <? 4).
    + apply bind_Return_inv in Hk as ([] & st2 & evs3 & evs4 & Hz & Hw & ->).
      apply perform_Return_inv in Hz as (w2 & Ez & -> & ->).
      destruct (IH _ _ Hw) as (k & Hk & -> & HG).
      exists (S k). split; [lia|]. split; [reflexivity | exact HG].
    + unfold ret in Hk. injection Hk as <- <-.
      exists 0%nat. split; [lia|]. split; reflexivity.
Qed.

Lemma wait_is_rounds_then_a_read_witness :
  exists k,
    (k < 5)%nat /\
    events_of (while_status_lt_4 (demo_host nominal "40.2") 5 1%nat
                 (start (demo_host nominal "40.2") 2%nat))
    = (concat (repeat (waiting_round 1%nat) k)
       ++ [call_ev (result_status 1%nat)])%list /\
    module_globals
      (state_of (while_status_lt_4 (demo_host nominal "40.2") 5 1%nat
                   (start (demo_host nominal "40.2") 2%nat)))
    = module_globals (start (demo_host nominal "40.2") 2%nat).
Proof.
  eapply (wait_is_rounds_then_a_read (demo_host nominal "40.2") 5 1%nat
            (start (demo_host nominal "40.2") 2%nat)).
  reflexivity.
Defined.

(** ** What the steps leave alone *)

(** X6. Once the six names are bound nothing rebinds them: whatever the
    host does, the module ends with exactly the six bindings of lines
    34-44 on top of the names it started with, and neither step nor the
    messaging helper changes any name. *)
Theorem names_are_bound_once (h : Host) (fuel : nat)
  (lat lon outLayer point distances units message : string) (st : pystate h) :
  module_globals (state_of (script h fuel st))
  = (bindings h ++ module_globals st)%list /\
  module_globals (state_of (createSPCPoint h fuel lat lon outLayer st))
  = module_globals st /\
  module_globals (state_of (createBuffers h fuel point outLayer distances units st))
  = module_globals st /\
  module_globals (state_of (addMessage h message st)) = module_globals st.
Proof.
  split; [|split; [|split]].
  - rewrite script_run. cbn [state_of fst snd].
    destruct (run_tools_spec h (bindings h ++ module_globals st)%list
                (fun _ => True) fuel (bound_bindings h _))
      with (st := mkState h (world st) (bindings h ++ module_globals st)%list)
      as (_ & H & _); auto.
    + intros msg. apply spec_addMessage.
      * intros s. left. exact I.
      * intros c w e w' _. exact I.
    + apply createSPCPoint_events.
    + apply createBuffers_events.
  - apply (createSPCPoint_events h (module_globals st) fuel lat lon outLayer st
             eq_refl).
  - apply (createBuffers_events h (module_globals st) fuel point outLayer
             distances units st eq_refl).
  - rewrite addMessage_run. unfold perform.
    destruct (respond h _ (world st)) as [[e|a] w]; reflexivity.
Qed.

Lemma Forall_existsb_false {A} (P : A -> Prop) (f : A -> bool) (l : list A) :
  (forall x, P x -> f x = false) -> Forall P l -> existsb f l = false.
Proof.
  intros Hf H. induction H as [|x l Hx _ IH]; [reflexivity|].
  cbn. rewrite (Hf x Hx), IH. reflexivity.
Qed.

(** X7. The two steps do not overlap: [createSPCPoint] never calls the
    buffer operation, [createBuffers] never builds a reference, a point
    or a geometry and never projects, and neither reads a dialog
    parameter. *)
Theorem steps_keep_to_their_calls (h : Host) (fuel : nat)
  (lat lon outLayer point distances units : string) (st : pystate h) :
  existsb is_MultipleRingBuffer
    (events_of (createSPCPoint h fuel lat lon outLayer st)) = false /\
  existsb is_GetParameterAsText
    (events_of (createSPCPoint h fuel lat lon outLayer st)) = false /\
  existsb is_geometry_call
    (events_of (createBuffers h fuel point outLayer distances units st)) = false /\
  existsb is_GetParameterAsText
    (events_of (createBuffers h fuel point outLayer distances units st)) = false.
Proof.
  pose proof (createSPCPoint_events h (module_globals st) fuel lat lon outLayer
                st eq_refl) as (H1 & _).
  pose proof (createBuffers_events h (module_globals st) fuel point outLayer
                distances units st eq_refl) as (H2 & _).
  repeat split.
  - eapply Forall_existsb_false; [|exact H1].
    intros [i|c] H; [destruct H|]; destruct c; cbn in *; auto; contradiction.
  - eapply Forall_existsb_false; [|exact H1].
    intros [i|c] H; [destruct H|]; reflexivity.
  - eapply Forall_existsb_false; [|exact H2].
    intros [i|c] H; [destruct H|]; destruct c; cbn in *; auto; contradiction.
  - eapply Forall_existsb_false; [|exact H2].
    intros [i|c] H; [destruct H|]; reflexivity.
Qed.

(** ** Where error lines come from *)

Section ErrorLines.

Variable h : Host.

Lemma any_exception : host_raises_in h (fun _ => True).
Proof. intros c w e w' _. exact I. Qed.

Ltac quiet_step :=
  apply spec_bind with (R := fun _ => True); [| intros ? _].

Ltac quiet_call c :=
  apply (spec_perform h _ not_AddError (fun _ => True) c);
  [reflexivity | apply any_exception].

Lemma while_quiet G (fuel : nat) (r : Result) :
  spec h G not_AddError (fun _ => True) (while_status_lt_4 h fuel r)
    (fun _ => True).
Proof. apply spec_while; [reflexivity | reflexivity | apply any_exception]. Qed.

Lemma addMessage_quiet G (message : string) :
  spec h G not_AddError (fun _ => True) (addMessage h message) (fun _ => True).
Proof. apply spec_addMessage; [reflexivity | apply any_exception]. Qed.

Lemma createSPCPoint_try_quiet G (fuel : nat) (lat lon outLayer : string) :
  spec h G not_AddError (fun _ => True)
    (createSPCPoint_try h fuel lat lon outLayer) (fun _ => True).
Proof.
  unfold createSPCPoint_try, SpatialReference, Point, PointGeometry.
  quiet_step.
  { quiet_step; [quiet_call (arcpy_SpatialReference 4326) | apply spec_ret, I]. }
  quiet_step.
  { quiet_step; [quiet_call (arcpy_SpatialReference 2272) | apply spec_ret, I]. }
  quiet_step.
  { quiet_step; [quiet_call (arcpy_Point lon lat) | apply spec_ret, I]. }
  quiet_step.
  { quiet_step; [| apply spec_ret, I].
    apply (spec_perform h _ not_AddError (fun _ => True)
             (arcpy_PointGeometry _ _)); [reflexivity | apply any_exception]. }
  quiet_step.
  { eapply spec_str_format; [apply format_created_point | exact I]. }
  quiet_step; [apply addMessage_quiet|].
  quiet_step.
  { apply (spec_perform h _ not_AddError (fun _ => True)
             (arcpy_Project_management _ _ _ _ _));
      [reflexivity | apply any_exception]. }
  quiet_step; [apply while_quiet|].
  quiet_step.
  { apply (spec_perform h _ not_AddError (fun _ => True) (result_getMessages _));
      [reflexivity | apply any_exception]. }
  quiet_step.
  { apply (spec_perform h _ not_AddError (fun _ => True) (arcpy_AddMessage _));
      [reflexivity | apply any_exception]. }
  apply addMessage_quiet.
Qed.

Lemma createBuffers_try_quiet G (fuel : nat)
  (point outLayer distances units : string) :
  spec h G not_AddError (fun _ => True)
    (createBuffers_try h fuel point outLayer distances units) (fun _ => True).
Proof.
  unfold createBuffers_try.
  quiet_step.
  { apply (spec_perform h _ not_AddError (fun _ => True)
             (arcpy_MultipleRingBuffer_analysis _ _ _ _));
      [reflexivity | apply any_exception]. }
  quiet_step; [apply while_quiet|].
  quiet_step.
  { apply (spec_perform h _ not_AddError (fun _ => True) (result_getMessages _));
      [reflexivity | apply any_exception]. }
  quiet_step.
  { apply (spec_perform h _ not_AddError (fun _ => True) (arcpy_AddMessage _));
      [reflexivity | apply any_exception]. }
  quiet_step.
  { apply spec_global. destruct (lookup "lat" G); exact I. }
  quiet_step.
  { apply spec_global. destruct (lookup "lon" G); exact I. }
  quiet_step.
  { eapply spec_str_format; [apply format_created_buffers | exact I]. }
  apply addMessage_quiet.
Qed.

(** The handler writes nothing but its two lines. *)
Lemma handler_events (e : exc) (st : pystate h) :
  Forall (fun ev =>
            ev = call_ev (arcpy_AddError (message_of e ++ blank_lines)) \/
            ev = call_ev (arcpy_AddError generic_error))
    (events_of (except_handler h e st)).
Proof.
  destruct (head_is_str (args e)) eqn:Hh.
  - unfold except_handler, message_of.
    destruct (args e) as [|[| m |z] rest]; try discriminate.
    cbn [getitem0]. rewrite bind_ret_l. cbn [add_str]. rewrite bind_ret_l.
    rewrite bind_events, perform_events. cbn [app].
    constructor; [left; reflexivity|].
    destruct (outcome_of (perform h (arcpy_AddError (m ++ blank_lines)) st));
      try constructor.
    rewrite perform_events. constructor; [right; reflexivity | constructor].
  - rewrite (handler_escapes h e st Hh). constructor.
Qed.

Lemma try_error_lines (body : M h unit) (st : pystate h) :
  Forall not_AddError (events_of (body st)) ->
  Forall (reported_by body st)
    (events_of (try_except_Exception body (except_handler h) st)).
Proof.
  intros Hq. rewrite try_events. apply Forall_app. split.
  - eapply Forall_impl; [|exact Hq].
    intros [i|c] H; [exact I|]. destruct c; try exact I. discriminate H.
  - destruct (body st) as [[[a|e|] st1] evs1] eqn:Eb;
      cbn [outcome_of state_of fst snd]; try constructor.
    destruct (isinstance_Exception e) eqn:Hi; [|constructor].
    destruct (head_is_str (args e)) eqn:Hh.
    + eapply Forall_impl; [|apply handler_events].
      intros ev [-> | ->]; cbn; exists e, st1, evs1; auto.
    + rewrite (handler_escapes h e st1 Hh). constructor.
Qed.

End ErrorLines.

(** X3. Every error line a step writes comes from its handler: the
    step's [try] block raised an exception of class [Exception] whose
    first argument is a string, and the line is that string followed by
    the blank lines, or the generic text.  The class of the exception
    and its further arguments appear nowhere; a block that raises
    nothing leaves no error line. *)
Theorem error_lines_report_the_raised_exception (h : Host) (fuel : nat)
  (lat lon outLayer point distances units : string) (st : pystate h) :
  Forall (reported_by (createSPCPoint_try h fuel lat lon outLayer) st)
    (events_of (createSPCPoint h fuel lat lon outLayer st)) /\
  Forall (reported_by (createBuffers_try h fuel point outLayer distances units) st)
    (events_of (createBuffers h fuel point outLayer distances units st)).
Proof.
  split.
  - apply try_error_lines.
    apply (createSPCPoint_try_quiet h (module_globals st) fuel lat lon outLayer
             st eq_refl).
  - apply try_error_lines.
    apply (createBuffers_try_quiet h (module_globals st) fuel point outLayer
             distances units st eq_refl).
Qed.

(** ** Runs that succeed *)

Section Success.

Variable h : Host.


(** The end of a list. *)
Lemma ends_app {A} (l1 l2 tail : list A) :
  (exists l0, l2 = l0 ++ tail)%list -> (exists l0, l1 ++ l2 = l0 ++ tail)%list.
Proof.
  intros (l0 & ->). exists (l1 ++ l0)%list. apply app_assoc.
Qed.




(** A module that returned wrote the closing message last. *)
Lemma run_tools_closes (fuel : nat) (st st' : pystate h) evs :
  run_tools h fuel st = (Return tt, st', evs) ->
  exists t evs0,
    evs = (evs0 ++ [call_ev (arcpy_AddMessage (stamped t closing_message))])%list.
Proof.
  intros H. unfold run_tools in H.
  do 10 (apply bind_Return_inv in H as (? & ? & ? & ? & _ & H & ->)).
  rewrite addMessage_run in H.
  apply (perform_Return_inv h (arcpy_AddMessage _) _ _ tt) in H
    as (w9 & _ & _ & ->).
  eexists (clock h _).
  do 10 (apply ends_app). exists []. reflexivity.
Qed.

End Success.



(** X5. A run of the module that returns has written the closing
    message, "Create Buffer from Point tool has completed running.", as
    its last line: also when both steps failed and wrote their error
    lines before it. *)
Theorem returned_module_wrote_closing_message (h : Host) (fuel : nat)
  (st st' : pystate h) (evs : list event)
  (Hrun : script h fuel st = (Return tt, st', evs)) :
  exists t evs0,
    evs = (evs0 ++ [call_ev (arcpy_AddMessage (stamped t closing_message))])%list.
Proof.
  rewrite script_run in Hrun.
  destruct (run_tools h fuel
              (mkState h (world st) (bindings h ++ module_globals st)%list))
    as [[o s] e] eqn:Er.
  cbn [outcome_of state_of events_of fst snd] in Hrun.
  injection Hrun as -> -> <-.
  destruct (run_tools_closes h fuel _ _ _ Er) as (t & evs0 & ->).
  exists t, (parameter_reads ++ evs0)%list. reflexivity.
Qed.

Lemma returned_module_wrote_closing_message_witness :
  length (filter is_AddError
            (events_of (script refusing_host 5 (start refusing_host 0%nat))))
  = 4%nat /\
  exists t evs0,
    events_of (script refusing_host 5 (start refusing_host 0%nat))
    = (evs0 ++ [call_ev (arcpy_AddMessage (stamped t closing_message))])%list.
Proof.
  split; [vm_compute; reflexivity|].
  eapply (returned_module_wrote_closing_message refusing_host 5
            (start refusing_host 0%nat)).
  vm_compute. reflexivity.
Defined.

(** ** A run on an engine that answers at once *)

Section Synchronous.

Variable h : Host.
Hypothesis Hall : returns_on h (fun _ => true).
Hypothesis Hsync : completes_at_once h.

Ltac run E :=
  rewrite (bind_returns h _ _ _ _ _ _ E);
  cbn [outcome_of state_of events_of fst snd module_globals world]; cbv beta.

Lemma while_returns_at_once (fuel : nat) (r : Result) (st : pystate h) :
  exists w',
    while_status_lt_4 h (S fuel) r st
    = (Return tt, mkState h w' (module_globals st), [call_ev (result_status r)]).
Proof.
  destruct (Hsync r (world st)) as (s & w' & Es & Hs).
  exists w'. cbn [while_status_lt_4].
  run (perform_returns h (result_status r) st s w' Es).
  apply Z.ltb_ge in Hs. rewrite Hs. reflexivity.
Qed.

Lemma wait_and_report_run (fuel : nat) (r : Result) (rest : M h unit)
  (st : pystate h) :
  exists st1 rv,
    module_globals st1 = module_globals st /\
    (while_status_lt_4 h (S fuel) r;;
     resultValue <- perform h (result_getMessages r);;
     perform h (arcpy_AddMessage (resultValue ++ blank_lines));;
     rest) st
    = (outcome_of (rest st1), state_of (rest st1),
       ([call_ev (result_status r); call_ev (result_getMessages r);
         call_ev (arcpy_AddMessage (rv ++ blank_lines))]
        ++ events_of (rest st1))%list).
Proof.
  destruct (while_returns_at_once fuel r st) as (w1 & E1).
  run E1.
  destruct (Hall (result_getMessages r) w1 eq_refl) as (rv & w2 & E2).
  run (perform_returns h (result_getMessages r)
         (mkState h w1 (module_globals st)) rv w2 E2).
  destruct (Hall (arcpy_AddMessage (rv ++ blank_lines)) w2 eq_refl)
    as ([] & w3 & E3).
  run (perform_returns h (arcpy_AddMessage (rv ++ blank_lines))
         (mkState h w2 (module_globals st)) tt w3 E3).
  exists (mkState h w3 (module_globals st)), rv. split; reflexivity.
Qed.

Lemma addMessage_answers (message : string) (st : pystate h) :
  exists w',
    addMessage h message st
    = (Return tt, mkState h w' (module_globals st),
       [call_ev (arcpy_AddMessage (stamped (clock h (world st)) message))]).
Proof.
  destruct (Hall (arcpy_AddMessage (stamped (clock h (world st)) message))
              (world st) eq_refl) as ([] & w' & E).
  exists w'. apply addMessage_returns, E.
Qed.

Lemma createSPCPoint_at_once (fuel : nat) (lat lon outLayer : string)
  (st : pystate h) :
  exists st' t1 t2 r rv,
    module_globals st' = module_globals st /\
    createSPCPoint h (S fuel) lat lon outLayer st
    = (Return tt, st',
       (setup_events lat lon t1 ++
        [call_ev (arcpy_Project_management
                    (mkPointGeometry (mkPoint lon lat) (mkSpatialReference 4326))
                    outLayer (mkSpatialReference 2272)
                    "NAD_1983_To_WGS_1984_1" "PRESERVE_SHAPE");
         call_ev (result_status r); call_ev (result_getMessages r);
         call_ev (arcpy_AddMessage (rv ++ blank_lines));
         call_ev (arcpy_AddMessage (stamped t2 reprojected_message))])%list).
Proof.
  destruct (createSPCPoint_try_setup h (S fuel) lat lon outLayer st)
    as (st1 & t1 & HG1 & Eb).
  { intros c w _. apply Hall. reflexivity. }
  destruct (Hall (arcpy_Project_management
                    (mkPointGeometry (mkPoint lon lat) (mkSpatialReference 4326))
                    outLayer (mkSpatialReference 2272)
                    "NAD_1983_To_WGS_1984_1" "PRESERVE_SHAPE") (world st1)
              eq_refl) as (r & w2 & E2).
  destruct (wait_and_report_run fuel r
              (addMessage h
                 "Reprojected point from WGS 1984 to PA State Plane South (feet).")
              (mkState h w2 (module_globals st1)))
    as (st3 & rv & HG3 & E3).
  destruct (addMessage_answers
              "Reprojected point from WGS 1984 to PA State Plane South (feet)."
              st3) as (w4 & E4).
  exists (mkState h w4 (module_globals st3)), t1, (clock h (world st3)), r, rv.
  split.
  - cbn [module_globals]. rewrite HG3. exact HG1.
  - unfold createSPCPoint, try_except_Exception. rewrite Eb.
    unfold project_and_wait.
    run (perform_returns h _ st1 r w2 E2).
    rewrite E3, E4. reflexivity.
Qed.

Lemma createBuffers_at_once (fuel : nat)
  (point outLayer distances units la lo : string) (st : pystate h) :
  lookup "lat" (module_globals st) = Some la ->
  lookup "lon" (module_globals st) = Some lo ->
  exists st' t r rv,
    module_globals st' = module_globals st /\
    createBuffers h (S fuel) point outLayer distances units st
    = (Return tt, st',
       [call_ev (arcpy_MultipleRingBuffer_analysis
                   point outLayer distances units);
        call_ev (result_status r); call_ev (result_getMessages r);
        call_ev (arcpy_AddMessage (rv ++ blank_lines));
        call_ev (arcpy_AddMessage
                   (stamped t ("Created buffer(s) around location latitude: "
                               ++ la ++ "; longitude: " ++ lo ++ ".")))]).
Proof.
  intros Hla Hlo.
  destruct (Hall (arcpy_MultipleRingBuffer_analysis
                    point outLayer distances units) (world st) eq_refl)
    as (r & w1 & E1).
  destruct (wait_and_report_run fuel r
              (lat <- global h "lat";;
               lon <- global h "lon";;
               msg <- str_format h
                 "Created buffer(s) around location latitude: {}; longitude: {}."
                 [lat; lon];;
               addMessage h msg)
              (mkState h w1 (module_globals st)))
    as (st3 & rv & HG3 & E3).
  cbn [module_globals] in HG3.
  destruct (addMessage_answers
              ("Created buffer(s) around location latitude: " ++ la
               ++ "; longitude: " ++ lo ++ ".") st3) as (w4 & E4).
  exists (mkState h w4 (module_globals st3)), (clock h (world st3)), r, rv.
  split; [exact HG3|].
  unfold createBuffers, try_except_Exception, createBuffers_try.
  run (perform_returns h _ st r w1 E1).
  rewrite E3.
  rewrite <- HG3 in Hla, Hlo.
  run (global_returns h "lat" st3 la Hla).
  run (global_returns h "lon" st3 lo Hlo).
  run (str_format_returns h _ _ _ st3 (format_created_buffers la lo)).
  rewrite E4. reflexivity.
Qed.

Lemma script_at_once (fuel : nat) (st : pystate h) :
  exists st' t0 t1 t2 t3 t4 r1 m1 r2 m2,
    script h (S fuel) st
    = (Return tt, st',
       (parameter_reads
        ++ [call_ev (arcpy_AddMessage (stamped t0 opening_message))]
        ++ setup_events (dialog h 0) (dialog h 1) t1
        ++ [call_ev (arcpy_Project_management
                       (mkPointGeometry (mkPoint (dialog h 1) (dialog h 0))
                          (mkSpatialReference 4326))
                       (dialog h 2) (mkSpatialReference 2272)
                       "NAD_1983_To_WGS_1984_1" "PRESERVE_SHAPE");
            call_ev (result_status r1); call_ev (result_getMessages r1);
            call_ev (arcpy_AddMessage (m1 ++ blank_lines));
            call_ev (arcpy_AddMessage (stamped t2 reprojected_message))]
        ++ [call_ev (arcpy_MultipleRingBuffer_analysis
                       (dialog h 2) (dialog h 5) (dialog h 3) (dialog h 4));
            call_ev (result_status r2); call_ev (result_getMessages r2);
            call_ev (arcpy_AddMessage (m2 ++ blank_lines));
            call_ev (arcpy_AddMessage
                       (stamped t3
                          ("Created buffer(s) around location latitude: "
                           ++ dialog h 0 ++ "; longitude: " ++ dialog h 1
                           ++ ".")));
            call_ev (arcpy_AddMessage (stamped t4 closing_message))])%list).
Proof.
  rewrite script_run.
  set (G := (bindings h ++ module_globals st)%list).
  destruct (bound_bindings h (module_globals st))
    as (Hlat & Hlon & Hspc & Hdist & Hunits & Hbuf).
  fold G in Hlat, Hlon, Hspc, Hdist, Hunits, Hbuf.
  unfold run_tools.
  destruct (addMessage_answers
              "Converting WGS 1984 point to PA State Plane South (feet) point."
              (mkState h (world st) G)) as (w1 & E0).
  run E0.
  run (global_returns h "lat" (mkState h w1 G) _ Hlat).
  run (global_returns h "lon" (mkState h w1 G) _ Hlon).
  run (global_returns h "spcPoint" (mkState h w1 G) _ Hspc).
  destruct (createSPCPoint_at_once fuel (dialog h 0) (dialog h 1) (dialog h 2)
              (mkState h w1 G)) as (st2 & t1 & t2 & r1 & m1 & HG2 & E1).
  cbn [module_globals] in HG2.
  run E1.
  rewrite <- HG2 in Hlat, Hlon, Hspc, Hdist, Hunits, Hbuf.
  run (global_returns h "spcPoint" st2 _ Hspc).
  run (global_returns h "pointBuffer" st2 _ Hbuf).
  run (global_returns h "buffDist" st2 _ Hdist).
  run (global_returns h "buffUnits" st2 _ Hunits).
  destruct (createBuffers_at_once fuel (dialog h 2) (dialog h 5) (dialog h 3)
              (dialog h 4) (dialog h 0) (dialog h 1) st2 Hlat Hlon)
    as (st3 & t3 & r2 & m2 & HG3 & E2).
  run E2.
  destruct (addMessage_answers
              "Create Buffer from Point tool has completed running." st3)
    as (w4 & E4).
  rewrite E4.
  exists (mkState h w4 (module_globals st3)), (clock h (world st)), t1, t2, t3,
    (clock h (world st3)), r1, m1, r2, m2.
  cbn [outcome_of state_of events_of fst snd app].
  rewrite <- !app_assoc. reflexivity.
Qed.

End Synchronous.

(** X8. On a host that answers every call and reports each job as over
    at its first status read, the module returns, for any bound of at
    least one round, after exactly these calls in this order: the six
    parameter reads, the opening message, the two references, the point
    (longitude first) and its geometry, a message, the projection, one
    status read, the engine's messages forwarded, a message, the buffer
    call on the dialog's values, one status read, the engine's messages
    forwarded, the message with the dialog's latitude and longitude, and
    the closing message.  It never sleeps and writes no error. *)
Theorem run_on_an_engine_that_answers_at_once (h : Host) (fuel : nat)
  (st : pystate h)
  (Hall : returns_on h (fun _ => true))
  (Hsync : completes_at_once h) :
  exists st' t0 t1 t2 t3 t4 r1 m1 r2 m2,
    script h (S fuel) st
    = (Return tt, st',
       (parameter_reads
        ++ [call_ev (arcpy_AddMessage (stamped t0 opening_message))]
        ++ setup_events (dialog h 0) (dialog h 1) t1
        ++ [call_ev (arcpy_Project_management
                       (mkPointGeometry (mkPoint (dialog h 1) (dialog h 0))
                          (mkSpatialReference 4326))
                       (dialog h 2) (mkSpatialReference 2272)
                       "NAD_1983_To_WGS_1984_1" "PRESERVE_SHAPE");
            call_ev (result_status r1); call_ev (result_getMessages r1);
            call_ev (arcpy_AddMessage (m1 ++ blank_lines));
            call_ev (arcpy_AddMessage (stamped t2 reprojected_message))]
        ++ [call_ev (arcpy_MultipleRingBuffer_analysis
                       (dialog h 2) (dialog h 5) (dialog h 3) (dialog h 4));
            call_ev (result_status r2); call_ev (result_getMessages r2);
            call_ev (arcpy_AddMessage (m2 ++ blank_lines));
            call_ev (arcpy_AddMessage
                       (stamped t3
                          ("Created buffer(s) around location latitude: "
                           ++ dialog h 0 ++ "; longitude: " ++ dialog h 1
                           ++ ".")));
            call_ev (arcpy_AddMessage (stamped t4 closing_message))])%list).
Proof. apply script_at_once; assumption. Qed.

Lemma obliging_host_answers : returns_on obliging_host (fun _ => true).
Proof. intros c w _. destruct c; cbn; eauto. Qed.

Lemma obliging_host_at_once : completes_at_once obliging_host.
Proof. intros r w. exists 4, w. split; [reflexivity | lia]. Qed.

Lemma run_on_an_engine_that_answers_at_once_witness :
  exists st' t0 t1 t2 t3 t4 r1 m1 r2 m2,
    script obliging_host 1 (start obliging_host tt)
    = (Return tt, st',
       (parameter_reads
        ++ [call_ev (arcpy_AddMessage (stamped t0 opening_message))]
        ++ setup_events "40.2" "-77.19" t1
        ++ [call_ev (arcpy_Project_management
                       (mkPointGeometry (mkPoint "-77.19" "40.2")
                          (mkSpatialReference 4326))
                       "spc_point" (mkSpatialReference 2272)
                       "NAD_1983_To_WGS_1984_1" "PRESERVE_SHAPE");
            call_ev (result_status r1); call_ev (result_getMessages r1);
            call_ev (arcpy_AddMessage (m1 ++ blank_lines));
            call_ev (arcpy_AddMessage (stamped t2 reprojected_message))]
        ++ [call_ev (arcpy_MultipleRingBuffer_analysis
                       "spc_point" "point_buffer" "500;1000" "Feet");
            call_ev (result_status r2); call_ev (result_getMessages r2);
            call_ev (arcpy_AddMessage (m2 ++ blank_lines));
            call_ev (arcpy_AddMessage
                       (stamped t3
                          ("Created buffer(s) around location latitude: "
                           ++ "40.2" ++ "; longitude: " ++ "-77.19" ++ ".")));
            call_ev (arcpy_AddMessage (stamped t4 closing_message))])%list).
Proof.
  apply (run_on_an_engine_that_answers_at_once obliging_host 0
           (start obliging_host tt)).
  - apply obliging_host_answers.
  - apply obliging_host_at_once.
Defined.

(** ** An operation that the engine refuses *)

(** X9. When the engine refuses an operation with an exception the
    handler can report, the step that asked for it stops there: it
    writes the exception's message and the generic error text and
    returns, without a status read, a sleep or a read of the result's
    messages.  For [createBuffers] the refused call and the two error
    lines are all it does. *)
Theorem refused_operation_is_reported_at_once (h : Host) (fuel : nat)
  (lat lon outLayer point distances units : string) (st : pystate h)
  (Hsinks : sinks_return h)
  (Hsetup : returns_on h (is_projection_setup lat lon))
  (Hrefuse : forall c w, is_engine_op c = true ->
               exists e w', respond h c w = (inl e, w') /\ loggable e = true) :
  (exists st' t e w w',
     respond h (arcpy_Project_management
                  (mkPointGeometry (mkPoint lon lat) (mkSpatialReference 4326))
                  outLayer (mkSpatialReference 2272)
                  "NAD_1983_To_WGS_1984_1" "PRESERVE_SHAPE") w = (inl e, w') /\
     createSPCPoint h fuel lat lon outLayer st
     = (Return tt, st',
        (setup_events lat lon t ++
         [call_ev (arcpy_Project_management
                     (mkPointGeometry (mkPoint lon lat) (mkSpatialReference 4326))
                     outLayer (mkSpatialReference 2272)
                     "NAD_1983_To_WGS_1984_1" "PRESERVE_SHAPE")] ++
         error_report (message_of e))%list)) /\
  (exists st' e w',
     respond h (arcpy_MultipleRingBuffer_analysis point outLayer distances units)
       (world st) = (inl e, w') /\
     createBuffers h fuel point outLayer distances units st
     = (Return tt, st',
        (call_ev (arcpy_MultipleRingBuffer_analysis
                    point outLayer distances units)
         :: error_report (message_of e)))).
Proof.
  split.
  - destruct (createSPCPoint_try_setup h fuel lat lon outLayer st Hsetup)
      as (st1 & t & _ & Eb).
    destruct (Hrefuse (arcpy_Project_management
                         (mkPointGeometry (mkPoint lon lat)
                            (mkSpatialReference 4326))
                         outLayer (mkSpatialReference 2272)
                         "NAD_1983_To_WGS_1984_1" "PRESERVE_SHAPE")
                (world st1) eq_refl) as (e & w' & Er & Hl).
    unfold project_and_wait in Eb.
    rewrite (bind_perform_raises h _ _ st1 e w' Er) in Eb.
    cbn [outcome_of state_of events_of fst snd] in Eb.
    destruct (try_reports h _ st e _ _ Hsinks Eb Hl) as (st2 & Ht).
    exists st2, t, e, (world st1), w'. split; [exact Er|].
    unfold createSPCPoint. rewrite Ht, <- app_assoc. reflexivity.
  - destruct (Hrefuse (arcpy_MultipleRingBuffer_analysis
                         point outLayer distances units) (world st) eq_refl)
      as (e & w' & Er & Hl).
    assert (Eb : createBuffers_try h fuel point outLayer distances units st
                 = (Raise e, mkState h w' (module_globals st),
                    [call_ev (arcpy_MultipleRingBuffer_analysis
                                point outLayer distances units)])).
    { unfold createBuffers_try. apply (bind_perform_raises h _ _ st e w' Er). }
    destruct (try_reports h _ st e _ _ Hsinks Eb Hl) as (st2 & Ht).
    exists st2, e, w'. split; [exact Er|].
    unfold createBuffers. rewrite Ht. reflexivity.
Qed.

Lemma refusing_host_refuses (c : call) (w : nat) :
  is_engine_op c = true ->
  exists e w', respond refusing_host c w = (inl e, w') /\ loggable e = true.
Proof.
  intros Hc. destruct c; try discriminate Hc; cbn; eauto.
Qed.

Lemma refused_operation_is_reported_at_once_witness :
  (exists st' t e w w',
     respond refusing_host
       (arcpy_Project_management
          (mkPointGeometry (mkPoint "-77.19" "40.2") (mkSpatialReference 4326))
          "spc_point" (mkSpatialReference 2272)
          "NAD_1983_To_WGS_1984_1" "PRESERVE_SHAPE") w = (inl e, w') /\
     createSPCPoint refusing_host 5 "40.2" "-77.19" "spc_point"
       (start refusing_host 0%nat)
     = (Return tt, st',
        (setup_events "40.2" "-77.19" t ++
         [call_ev (arcpy_Project_management
                     (mkPointGeometry (mkPoint "-77.19" "40.2")
                        (mkSpatialReference 4326))
                     "spc_point" (mkSpatialReference 2272)
                     "NAD_1983_To_WGS_1984_1" "PRESERVE_SHAPE")] ++
         error_report (message_of e))%list)) /\
  (exists st' e w',
     respond refusing_host
       (arcpy_MultipleRingBuffer_analysis "spc_point" "spc_point" "500;1000"
          "Feet") (world (start refusing_host 0%nat)) = (inl e, w') /\
     createBuffers refusing_host 5 "spc_point" "spc_point" "500;1000" "Feet"
       (start refusing_host 0%nat)
     = (Return tt, st',
        (call_ev (arcpy_MultipleRingBuffer_analysis
                    "spc_point" "spc_point" "500;1000" "Feet")
         :: error_report (message_of e)))).
Proof.
  apply (refused_operation_is_reported_at_once refusing_host 5
           "40.2" "-77.19" "spc_point" "spc_point" "500;1000" "Feet"
           (start refusing_host 0%nat)).
  - apply demo_host_sinks.
  - apply demo_host_accepts; reflexivity.
  - apply refusing_host_refuses.
Defined.

(** ** The messages outside the steps *)

(** X10. The opening message of line 140 is written outside any [try]:
    when the host's [AddMessage] raises on it, the exception leaves the
    module at once; the six parameters have been read and bound, and
    neither step is called. *)
Theorem opening_message_is_unprotected (h : Host) (fuel : nat)
  (st : pystate h) (e : exc) (w' : World h)
  (Hraise : respond h
              (arcpy_AddMessage (stamped (clock h (world st)) opening_message))
              (world st) = (inl e, w')) :
  script h fuel st
  = (Raise e, mkState h w' (bindings h ++ module_globals st)%list,
     (parameter_reads ++
      [call_ev (arcpy_AddMessage
                  (stamped (clock h (world st)) opening_message))])%list).
Proof.
  rewrite script_run. unfold run_tools.
  assert (E : addMessage h opening_message
                (mkState h (world st) (bindings h ++ module_globals st)%list)
              = (Raise e, mkState h w' (bindings h ++ module_globals st)%list,
                 [call_ev (arcpy_AddMessage
                             (stamped (clock h (world st)) opening_message))])).
  { rewrite addMessage_run.
    apply (perform_raises h (arcpy_AddMessage _)
             (mkState h (world st) (bindings h ++ module_globals st)%list)
             e w' Hraise). }
  unfold opening_message in E at 1.
  rewrite (bind_raises h _ _ _ _ _ _ E). reflexivity.
Qed.

Lemma opening_message_is_unprotected_witness :
  script mute_host 5 (start mute_host 0%nat)
  = (Raise (mkExc RuntimeError
              [VStr "AddMessage: Object: Error in executing tool"]),
     mkState mute_host 0%nat (bindings mute_host ++ [])%list,
     (parameter_reads ++
      [call_ev (arcpy_AddMessage
                  (stamped (mkDatetime 2017 2 13 10 0 0) opening_message))])%list).
Proof.
  apply (opening_message_is_unprotected mute_host 5 (start mute_host 0%nat)).
  reflexivity.
Defined.
